(** * finance_manager: validation, persistence and reporting core

    A shallow embedding of [finance_manager.py]: the [Expense] entity and its
    three validators, the CSV store of [FileManager] (writer, reader,
    [DictReader] rows, the file system as a finite map) and the pure report
    functions of [ReportGenerator].

    Conventions of the model.
    - A Python [str] is a [string]; the character functions ([strip],
      [title], [lower], the digit classes of [strptime] and [float]) are the
      ones Python applies to 7-bit ASCII characters, and characters above 127
      are left alone by them.
    - A Python [float] is an IEEE-754 binary64 number, a [spec_float] with
      precision 53 and maximal exponent 1024; decimal text is converted with
      correct rounding (ties to even), as CPython does.
    - Exceptions are values of [exn]; a computation that may raise returns a
      [result]. *)

From Stdlib Require Import ZArith String Ascii List Bool Lia SpecFloat DecimalString.
From Stdlib Require Import Sorted Permutation.
From stdpp Require Import base option list gmap strings.
Import ListNotations.

Local Open Scope string_scope.
Local Open Scope Z_scope.

(** ** Python strings (ASCII) *)

Module PyStr.

Definition code (c : ascii) : Z := Z.of_N (N_of_ascii c).

Definition between (lo hi : Z) (c : ascii) : bool :=
  (lo <=? code c) && (code c <=? hi).

(** [str.isspace] on one ASCII character: TAB..CR, FS..US and the blank. *)
Definition is_space (c : ascii) : bool :=
  between 9 13 c || between 28 31 c || (code c =? 32).

(** [Py_ISSPACE], the C-locale class used by [float()] on ASCII text. *)
Definition is_c_space (c : ascii) : bool :=
  between 9 13 c || (code c =? 32).

Definition is_digit (c : ascii) : bool := between 48 57 c.
Definition is_upper (c : ascii) : bool := between 65 90 c.
Definition is_lower (c : ascii) : bool := between 97 122 c.

Definition digit_val (c : ascii) : Z := code c - 48.

Definition to_lower (c : ascii) : ascii :=
  if is_upper c then ascii_of_N (N_of_ascii c + 32) else c.

Definition to_upper (c : ascii) : ascii :=
  if is_lower c then ascii_of_N (N_of_ascii c - 32) else c.

Fixpoint lstrip_by (sp : ascii -> bool) (s : string) : string :=
  match s with
  | EmptyString => EmptyString
  | String c r => if sp c then lstrip_by sp r else s
  end.

Fixpoint rstrip_by (sp : ascii -> bool) (s : string) : string :=
  match s with
  | EmptyString => EmptyString
  | String c r =>
      match rstrip_by sp r with
      | EmptyString => if sp c then EmptyString else String c EmptyString
      | r' => String c r'
      end
  end.

(** [s.strip()] *)
Definition strip (s : string) : string := rstrip_by is_space (lstrip_by is_space s).

(** [s.lower()] *)
Fixpoint lower (s : string) : string :=
  match s with
  | EmptyString => EmptyString
  | String c r => String (to_lower c) (lower r)
  end.

(** [s.title()]: a cased character is upper-cased when the character before
    it is not cased, lower-cased when it is. *)
Fixpoint title_from (previous_is_cased : bool) (s : string) : string :=
  match s with
  | EmptyString => EmptyString
  | String c r =>
      if is_lower c then
        String (if previous_is_cased then c else to_upper c) (title_from true r)
      else if is_upper c then
        String (if previous_is_cased then to_lower c else c) (title_from true r)
      else String c (title_from false r)
  end.

Definition title (s : string) : string := title_from false s.

(** [needle in hay] *)
Fixpoint contains (needle hay : string) : bool :=
  String.prefix needle hay
  || match hay with
     | EmptyString => false
     | String _ r => contains needle r
     end.

(** [a <= b] and [a >= b] on strings: lexicographic on character codes. *)
Definition le (a b : string) : bool :=
  match String.compare a b with Gt => false | _ => true end.
Definition ge (a b : string) : bool := le b a.

(** Truth value of a string: non-empty. *)
Definition truthy (s : string) : bool :=
  match s with EmptyString => false | _ => true end.

(** [sep.join(l)] *)
Fixpoint join (sep : string) (l : list string) : string :=
  match l with
  | [] => ""
  | [x] => x
  | x :: r => x ++ sep ++ join sep r
  end.

End PyStr.

(** ** Python floats (binary64) *)

Module PyFloat.
Import PyStr.

Definition prec : Z := 53.
Definition emax : Z := 1024.

Abbreviation float := spec_float.

Definition nan : float := S754_nan.
Definition inf : float := S754_infinity false.
Definition zero : float := S754_zero false.

Definition is_nan (x : float) : bool :=
  match x with S754_nan => true | _ => false end.

Definition is_finite (x : float) : bool :=
  match x with S754_zero _ | S754_finite _ _ _ => true | _ => false end.

(** [x <= y], [x < y], [x == y] and [x + y] of IEEE-754. *)
Definition leb (x y : float) : bool := SFleb x y.
Definition ltb (x y : float) : bool := SFltb x y.
Definition eqb (x y : float) : bool := SFeqb x y.
Definition add (x y : float) : float := SFadd prec emax x y.

(** [float(n)] for an integer [n]. *)
Definition of_Z (n : Z) : float := binary_normalize prec emax n 0 false.

(** The binary64 number nearest to [(-1)^neg * m * 10^e10]. *)
Definition of_decimal (neg : bool) (m e10 : Z) : float :=
  match m with
  | Zpos p =>
      if 0 <=? e10
      then binary_round prec emax neg (p * Z.to_pos (10 ^ e10)) 0
      else SFdiv prec emax (S754_finite neg p 0)
                           (S754_finite false (Z.to_pos (10 ^ (- e10))) 0)
  | _ => S754_zero neg
  end.

(** *** [float(s)] for a string *)

(** Leading decimal digits of [s]: their value on top of [acc], how many
    there are on top of [n], and the rest of the string. *)
Fixpoint take_digits (acc n : Z) (s : string) : Z * Z * string :=
  match s with
  | String c r =>
      if is_digit c then take_digits (10 * acc + digit_val c) (n + 1) r
      else (acc, n, s)
  | EmptyString => (acc, n, s)
  end.

Definition take_sign (s : string) : bool * string :=
  match s with
  | String "-" r => (true, r)
  | String "+" r => (false, r)
  | _ => (false, s)
  end.

(** The exponent part: [e] or [E], an optional sign and at least one digit,
    up to the end of the text. *)
Definition parse_exponent (s : string) : option Z :=
  match s with
  | EmptyString => Some 0
  | String c r =>
      if (code c =? 101) || (code c =? 69) then
        let '(neg, r1) := take_sign r in
        match take_digits 0 0 r1 with
        | (v, n, EmptyString) =>
            if 0 <? n then Some (if neg then - v else v) else None
        | _ => None
        end
      else None
  end.

(** A decimal literal: digits, an optional point and digits, an optional
    exponent; at least one digit before the exponent. *)
Definition parse_decimal (neg : bool) (s : string) : option float :=
  let '(ip, ni, s1) := take_digits 0 0 s in
  let '(m, nf, s2) :=
    match s1 with
    | String "." r => take_digits ip 0 r
    | _ => (ip, 0, s1)
    end in
  if 0 <? ni + nf then
    match parse_exponent s2 with
    | Some e => Some (of_decimal neg m (e - nf))
    | None => None
    end
  else None.

Definition parse_inf_or_nan (neg : bool) (s : string) : option float :=
  let l := lower s in
  if String.eqb l "inf" || String.eqb l "infinity" then Some (S754_infinity neg)
  else if String.eqb l "nan" then Some S754_nan
  else None.

(** Underscores may stand only between two digits; they are removed. *)
Fixpoint drop_underscores (prev : ascii) (s : string) : option string :=
  match s with
  | EmptyString => if Ascii.eqb prev "_" then None else Some EmptyString
  | String c r =>
      if Ascii.eqb c "_" then
        if is_digit prev then drop_underscores c r else None
      else if Ascii.eqb prev "_" && negb (is_digit c) then None
      else option_map (String c) (drop_underscores c r)
  end.

Definition of_string (s : string) : option float :=
  let s := rstrip_by is_c_space (lstrip_by is_c_space s) in
  match drop_underscores Ascii.zero s with
  | None => None
  | Some s =>
      let '(neg, r) := take_sign s in
      match parse_decimal neg r with
      | Some x => Some x
      | None => parse_inf_or_nan neg r
      end
  end.

(** *** [round(x, 2)] *)

(** Nearest integer to [n / d], ties to even ([0 < d]). *)
Definition div_rne (n d : Z) : Z :=
  let q := n / d in
  let r := n mod d in
  match 2 * r ?= d with
  | Lt => q
  | Gt => q + 1
  | Eq => if Z.even q then q else q + 1
  end.

(** The exact value of [x] is rounded to two decimals, ties to even, and
    the decimal is converted back. NaN and the infinities are unchanged. *)
Definition round2 (x : float) : float :=
  match x with
  | S754_finite s m e =>
      of_decimal s (div_rne (100 * Zpos m * 2 ^ Z.max e 0) (2 ^ Z.max (- e) 0)) (-2)
  | _ => x
  end.

(** *** [repr(x)], which is also [str(x)]

    The shortest decimal digit string that converts back to [x]; among the
    strings of that length, the one nearest to [x]. *)

(** [n / d < 10^k], for positive [n] and [d]. *)
Definition below_pow10 (n d k : Z) : bool :=
  if 0 <=? k then n <? d * 10 ^ k else n * 10 ^ (- k) <? d.

(** The least [k] from [k0] on with [n / d < 10^k]. *)
Fixpoint decimal_point (fuel : nat) (n d k0 : Z) : Z :=
  match fuel with
  | O => k0
  | S fuel' => if below_pow10 n d k0 then k0 else decimal_point fuel' n d (k0 + 1)
  end.

(** The shortest digits [D] and exponent [k] with [D * 10^k] converting to
    the positive number [x = n / d]; [nd] digits are tried, then one more. *)
Fixpoint shortest (fuel : nat) (x : float) (n d decpt nd : Z) : Z * Z :=
  let k := decpt - nd in
  let num := if 0 <=? k then n else n * 10 ^ (- k) in
  let den := if 0 <=? k then d * 10 ^ k else d in
  let lo := num / den in
  let r := num mod den in
  let hi := lo + 1 in
  let ok_lo := (r =? 0) || eqb (of_decimal false lo k) x in
  let ok_hi := eqb (of_decimal false hi k) x in
  let nearest := if r =? 0 then lo else div_rne num den in
  match fuel with
  | O => (nearest, k)
  | S fuel' =>
      if ok_lo && ok_hi then (nearest, k)
      else if ok_lo then (lo, k)
      else if ok_hi then (hi, k)
      else shortest fuel' x n d decpt (nd + 1)
  end.

Definition digits_of (n : Z) : string :=
  NilZero.string_of_uint (N.to_uint (Z.to_N n)).

Fixpoint zeros (n : nat) : string :=
  match n with O => "" | S n' => String "0" (zeros n') end.

Definition strip_zeros (s : string) : string :=
  rstrip_by (fun c => Ascii.eqb c "0") s.

Definition split_at (n : nat) (s : string) : string * string :=
  (substring 0 n s, substring n (String.length s - n) s).

(** Layout of the digits [ds] with the decimal point after [decpt] digits:
    exponent notation when [decpt <= -4] or [decpt > 16]. *)
Definition layout (ds : string) (decpt : Z) : string :=
  let nd := Z.of_nat (String.length ds) in
  if (decpt <=? -4) || (16 <? decpt) then
    let '(d0, rest) := split_at 1 ds in
    let e := decpt - 1 in
    let es := digits_of (Z.abs e) in
    d0 ++ (if truthy rest then "." ++ rest else "")
       ++ "e" ++ (if e <? 0 then "-" else "+")
       ++ (if Z.abs e <? 10 then "0" else "") ++ es
  else if decpt <=? 0 then "0." ++ zeros (Z.to_nat (- decpt)) ++ ds
  else if nd <=? decpt then ds ++ zeros (Z.to_nat (decpt - nd)) ++ ".0"
  else let '(a, b) := split_at (Z.to_nat decpt) ds in a ++ "." ++ b.

Definition repr (x : float) : string :=
  match x with
  | S754_nan => "nan"
  | S754_infinity s => if s then "-inf" else "inf"
  | S754_zero s => if s then "-0.0" else "0.0"
  | S754_finite s m e =>
      let n := Zpos m * 2 ^ Z.max e 0 in
      let d := 2 ^ Z.max (- e) 0 in
      let decpt := decimal_point 640 n d (-324) in
      let '(D, k) := shortest 17 (S754_finite false m e) n d decpt 1 in
      let all := digits_of D in
      (if s then "-" else "")
        ++ layout (strip_zeros all) (k + Z.of_nat (String.length all))
  end.

End PyFloat.

(** ** Exceptions and dynamically typed arguments *)

Inductive exn : Type :=
  | ValueError (msg : string)
  | TypeError
  | AttributeError
  | KeyError (key : string)
  | ZeroDivisionError
  | CsvError (msg : string)
  | OSError (msg : string).

Inductive result (A : Type) : Type :=
  | Ok (a : A)
  | Raise (e : exn).
Arguments Ok {A} a.
Arguments Raise {A} e.

Definition bind {A B : Type} (r : result A) (k : A -> result B) : result B :=
  match r with
  | Ok a => k a
  | Raise e => Raise e
  end.

Notation "'let*' x ':=' r 'in' k" := (bind r (fun x => k))
  (at level 10, x name, r at level 200, k at level 200).

(** What a caller may pass where the source expects a number or a string:
    [None] (a missing CSV field), a [str] or a [float]. *)
Inductive pyval : Type :=
  | VNone
  | VStr (s : string)
  | VFloat (x : spec_float).

(** ** [datetime.strptime(date, '%Y-%m-%d')] *)

Module Strptime.
Import PyStr.

(** One alternative of a directive: the characters it consumes, as classes. *)
Fixpoint match_classes (cs : list (ascii -> bool)) (s : string) : option (string * string) :=
  match cs with
  | [] => Some (EmptyString, s)
  | p :: cs' =>
      match s with
      | String c r =>
          if p c then
            match match_classes cs' r with
            | Some (m, rest) => Some (String c m, rest)
            | None => None
            end
          else None
      | EmptyString => None
      end
  end.

Definition ch (a : ascii) : ascii -> bool := Ascii.eqb a.
Definition rng (lo hi : Z) : ascii -> bool := between lo hi.

(** [%Y] is [\d\d\d\d]. *)
Definition alts_Y : list (list (ascii -> bool)) :=
  [[is_digit; is_digit; is_digit; is_digit]].

(** [%m] is [1[0-2]|0[1-9]|[1-9]]. *)
Definition alts_m : list (list (ascii -> bool)) :=
  [[ch "1"; rng 48 50]; [ch "0"; rng 49 57]; [rng 49 57]].

(** [%d] is [3[0-1]|[1-2]\d|0[1-9]|[1-9]| [1-9]]. *)
Definition alts_d : list (list (ascii -> bool)) :=
  [[ch "3"; rng 48 49]; [rng 49 50; is_digit]; [ch "0"; rng 49 57];
   [rng 49 57]; [ch " "; rng 49 57]].

(** The first alternative, in order, that matches and whose continuation
    [k] succeeds on the rest. *)
Fixpoint first_alt {A : Type} (alts : list (list (ascii -> bool)))
         (s : string) (k : string -> string -> option A) : option A :=
  match alts with
  | [] => None
  | a :: alts' =>
      match match_classes a s with
      | Some (m, rest) =>
          match k m rest with
          | Some x => Some x
          | None => first_alt alts' s k
          end
      | None => first_alt alts' s k
      end
  end.

Definition literal {A : Type} (a : ascii) (s : string) (k : string -> option A) : option A :=
  match s with
  | String c r => if Ascii.eqb c a then k r else None
  | EmptyString => None
  end.

(** [int(group)]; the group may start with a blank. *)
Definition int_of (g : string) : Z :=
  fst (fst (PyFloat.take_digits 0 0 (lstrip_by (ch " ") g))).

(** The regular-expression match of the compiled format: the three groups
    and the text left after the match. *)
Definition regex_match (s : string) : option (Z * Z * Z * string) :=
  first_alt alts_Y s (fun gy r1 =>
  literal "-" r1 (fun r2 =>
  first_alt alts_m r2 (fun gm r3 =>
  literal "-" r3 (fun r4 =>
  first_alt alts_d r4 (fun gd rest =>
  Some (int_of gy, int_of gm, int_of gd, rest)))))).

Definition is_leap (y : Z) : bool :=
  (y mod 4 =? 0) && (negb (y mod 100 =? 0) || (y mod 400 =? 0)).

Definition days_in_month (y m : Z) : Z :=
  if m =? 2 then (if is_leap y then 29 else 28)
  else if (m =? 4) || (m =? 6) || (m =? 9) || (m =? 11) then 30
  else 31.

(** [datetime.date(y, m, d)] accepts these triples. *)
Definition valid_ymd (y m d : Z) : bool :=
  (1 <=? y) && (y <=? 9999) && (1 <=? m) && (m <=? 12)
  && (1 <=? d) && (d <=? days_in_month y m).

(** The parsed (year, month, day), or [None] where [strptime] raises
    [ValueError]: no match, unconverted data left, or no such day. *)
Definition strptime (s : string) : option (Z * Z * Z) :=
  match regex_match s with
  | Some (y, m, d, EmptyString) =>
      if valid_ymd y m d then Some (y, m, d) else None
  | _ => None
  end.

End Strptime.

(** ** The [Expense] entity *)

Record Expense : Type := mkExpense {
  amount : spec_float;
  category : string;
  date : string;
  description : string
}.

Definition CATEGORIES : list string :=
  ["Food"; "Transport"; "Entertainment"; "Shopping"; "Utilities";
   "Healthcare"; "Education"; "Other"].

(** The three validation failures, by the message the source raises. *)
Definition InvalidAmount : exn :=
  ValueError "Invalid amount. Must be a positive number.".
Definition InvalidCategory : exn :=
  ValueError ("Invalid category. Choose from: " ++ PyStr.join ", " CATEGORIES).
Definition InvalidDate : exn :=
  ValueError "Invalid date format. Use YYYY-MM-DD".

(** [float(amount)] *)
Definition to_float (v : pyval) : result spec_float :=
  match v with
  | VFloat x => Ok x
  | VStr s =>
      match PyFloat.of_string s with
      | Some x => Ok x
      | None => Raise (ValueError "could not convert string to float")
      end
  | VNone => Raise TypeError
  end.

(** The body of the [try] in [_validate_amount]. *)
Definition validate_amount_body (v : pyval) : result spec_float :=
  let* amt := to_float v in
  if PyFloat.leb amt PyFloat.zero
  then Raise (ValueError "Amount must be positive")
  else Ok (PyFloat.round2 amt).

(** [except (ValueError, TypeError)] around the body. *)
Definition _validate_amount (v : pyval) : result spec_float :=
  match validate_amount_body v with
  | Ok x => Ok x
  | Raise (ValueError _) | Raise TypeError => Raise InvalidAmount
  | Raise e => Raise e
  end.

(** [v.strip()]: only a [str] has the method. *)
Definition py_strip (v : pyval) : result string :=
  match v with
  | VStr s => Ok (PyStr.strip s)
  | _ => Raise AttributeError
  end.

Definition in_categories (c : string) : bool :=
  existsb (String.eqb c) CATEGORIES.

Definition _validate_category (v : pyval) : result string :=
  let* s := py_strip v in
  let cat := PyStr.title s in
  if in_categories cat then Ok cat else Raise InvalidCategory.

Definition _validate_date (v : pyval) : result string :=
  match v with
  | VStr s =>
      match Strptime.strptime s with
      | Some _ => Ok s
      | None => Raise InvalidDate
      end
  | _ => Raise TypeError
  end.

(** [Expense(amount, category, date, description)]: the fields are validated
    in this order and the first exception leaves the constructor. *)
Definition Expense_init (a c d desc : pyval) : result Expense :=
  let* a' := _validate_amount a in
  let* c' := _validate_category c in
  let* d' := _validate_date d in
  let* desc' := py_strip desc in
  Ok (mkExpense a' c' d' desc').

(** ** The [csv] module, dialect [excel]

    Delimiter comma, quote character the double quote, written doubled inside
    a quoted field, line terminator CR LF, minimal quoting, no escape
    character, not strict. *)

Module Csv.

Definition CR : ascii := "013"%char.
Definition LF : ascii := "010"%char.
Definition COMMA : ascii := ","%char.
Definition QUOTE : ascii := "034"%char.

Definition is_newline (c : ascii) : bool := Ascii.eqb c CR || Ascii.eqb c LF.

(** *** Writer *)

(** [str(field)]; [None] is written as the empty string. *)
Definition field_text (v : pyval) : string :=
  match v with
  | VNone => ""
  | VStr s => s
  | VFloat x => PyFloat.repr x
  end.

Definition special (c : ascii) : bool :=
  Ascii.eqb c COMMA || Ascii.eqb c QUOTE || is_newline c.

Fixpoint needs_quotes (s : string) : bool :=
  match s with
  | EmptyString => false
  | String c r => special c || needs_quotes r
  end.

Fixpoint double_quotes (s : string) : string :=
  match s with
  | EmptyString => EmptyString
  | String c r =>
      if Ascii.eqb c QUOTE then String QUOTE (String QUOTE (double_quotes r))
      else String c (double_quotes r)
  end.

Definition write_field (s : string) : string :=
  if needs_quotes s
  then String QUOTE (double_quotes s ++ String QUOTE EmptyString)
  else s.

Definition line_terminator : string := String CR (String LF EmptyString).

(** [writer.writerow(row)]: the text appended to the file. A row made of
    one empty field is written as a pair of quotes. *)
Definition writerow (row : list pyval) : string :=
  match map field_text row with
  | [EmptyString] => String QUOTE (String QUOTE line_terminator)
  | fs => PyStr.join "," (map write_field fs) ++ line_terminator
  end.

(** *** Reader *)

Inductive state : Type :=
  | START_RECORD | START_FIELD | IN_FIELD
  | IN_QUOTED_FIELD | QUOTE_IN_QUOTED_FIELD | EAT_CRNL.

Definition state_eqb (a b : state) : bool :=
  match a, b with
  | START_RECORD, START_RECORD | START_FIELD, START_FIELD
  | IN_FIELD, IN_FIELD | IN_QUOTED_FIELD, IN_QUOTED_FIELD
  | QUOTE_IN_QUOTED_FIELD, QUOTE_IN_QUOTED_FIELD | EAT_CRNL, EAT_CRNL => true
  | _, _ => false
  end.

(** The parser object: its state, the characters of the field being read
    (last one first), and the fields of the record read so far. *)
Record reader : Type := mkReader {
  st : state;
  field_rev : list ascii;
  field_len : Z;
  fields : list string
}.

Definition parse_reset : reader := mkReader START_RECORD [] 0 [].

Definition field_limit : Z := 131072.

Definition parse_add_char (rd : reader) (c : ascii) : result reader :=
  if field_limit <=? field_len rd
  then Raise (CsvError "field larger than field limit (131072)")
  else Ok (mkReader (st rd) (c :: field_rev rd) (field_len rd + 1) (fields rd)).

Definition parse_save_field (rd : reader) : reader :=
  mkReader (st rd) [] 0
           (fields rd ++ [string_of_list_ascii (rev (field_rev rd))]).

Definition set_state (s : state) (rd : reader) : reader :=
  mkReader s (field_rev rd) (field_len rd) (fields rd).

Definition after_line_end (c : option ascii) : state :=
  match c with None => START_RECORD | Some _ => EAT_CRNL end.

Definition ends_line (c : option ascii) : bool :=
  match c with None => true | Some a => is_newline a end.

Definition is_char (a : ascii) (c : option ascii) : bool :=
  match c with Some b => Ascii.eqb a b | None => false end.

Definition start_field (rd : reader) (c : option ascii) : result reader :=
  if ends_line c then Ok (set_state (after_line_end c) (parse_save_field rd))
  else if is_char QUOTE c then Ok (set_state IN_QUOTED_FIELD rd)
  else if is_char COMMA c then Ok (parse_save_field rd)
  else match c with
       | Some a => let* rd' := parse_add_char rd a in Ok (set_state IN_FIELD rd')
       | None => Ok rd
       end.

(** [parse_process_char]; [None] is the end-of-line mark fed after the
    characters of every line. *)
Definition parse_process_char (rd : reader) (c : option ascii) : result reader :=
  match st rd with
  | START_RECORD =>
      match c with
      | None => Ok rd
      | Some a =>
          if is_newline a then Ok (set_state EAT_CRNL rd)
          else start_field (set_state START_FIELD rd) c
      end
  | START_FIELD => start_field rd c
  | IN_FIELD =>
      if ends_line c then Ok (set_state (after_line_end c) (parse_save_field rd))
      else if is_char COMMA c then Ok (set_state START_FIELD (parse_save_field rd))
      else match c with
           | Some a => parse_add_char rd a
           | None => Ok rd
           end
  | IN_QUOTED_FIELD =>
      match c with
      | None => Ok rd
      | Some a =>
          if Ascii.eqb a QUOTE then Ok (set_state QUOTE_IN_QUOTED_FIELD rd)
          else parse_add_char rd a
      end
  | QUOTE_IN_QUOTED_FIELD =>
      if is_char QUOTE c then
        match c with
        | Some a => let* rd' := parse_add_char rd a in Ok (set_state IN_QUOTED_FIELD rd')
        | None => Ok rd
        end
      else if is_char COMMA c then Ok (set_state START_FIELD (parse_save_field rd))
      else if ends_line c then Ok (set_state (after_line_end c) (parse_save_field rd))
      else match c with
           | Some a => let* rd' := parse_add_char rd a in Ok (set_state IN_FIELD rd')
           | None => Ok rd
           end
  | EAT_CRNL =>
      match c with
      | None => Ok (set_state START_RECORD rd)
      | Some a =>
          if is_newline a then Ok rd
          else Raise (CsvError "new-line character seen in unquoted field")
      end
  end.

(** The characters of one line, then the end-of-line mark. *)
Fixpoint feed_line (rd : reader) (line : string) : result reader :=
  match line with
  | EmptyString => parse_process_char rd None
  | String c r => let* rd' := parse_process_char rd (Some c) in feed_line rd' r
  end.

(** Iterating over a file opened with [newline='']: a line ends after LF,
    after CR LF, or after a CR that no LF follows, and keeps its ending. *)
Fixpoint lines_from (cur_rev : list ascii) (s : string) : list string :=
  let close l := string_of_list_ascii (rev l) in
  match s with
  | EmptyString => match cur_rev with [] => [] | _ => [close cur_rev] end
  | String c r =>
      if Ascii.eqb c LF then close (c :: cur_rev) :: lines_from [] r
      else if Ascii.eqb c CR then
        match r with
        | String c' r' =>
            if Ascii.eqb c' LF then close (c' :: c :: cur_rev) :: lines_from [] r'
            else close (c :: cur_rev) :: lines_from [] r
        | EmptyString => close (c :: cur_rev) :: lines_from [] r
        end
      else lines_from (c :: cur_rev) r
  end.

Definition splitlines (s : string) : list string := lines_from [] s.

(** What iterating a reader yields: the records, in order, and the error
    that ends the iteration if one is raised. *)
Fixpoint records_from (rd : reader) (lines : list string)
  : list (list string) * option exn :=
  match lines with
  | [] =>
      if negb (field_len rd =? 0) || state_eqb (st rd) IN_QUOTED_FIELD
      then ([fields (parse_save_field rd)], None)
      else ([], None)
  | l :: rest =>
      match feed_line rd l with
      | Raise e => ([], Some e)
      | Ok rd' =>
          if state_eqb (st rd') START_RECORD then
            let '(rs, e) := records_from parse_reset rest in (fields rd' :: rs, e)
          else records_from rd' rest
      end
  end.

Definition reader_records (text : string) : list (list string) * option exn :=
  records_from parse_reset (splitlines text).

(** *** DictReader *)

(** [dict(zip(fieldnames, row))], then [None] for the field names that the
    row is too short for. Values beyond the field names go under the key
    [None], which no string key reads. *)
Fixpoint make_row (fieldnames row : list string) (d : gmap string pyval)
  : gmap string pyval :=
  match fieldnames, row with
  | k :: ks, v :: vs => make_row ks vs (<[k := VStr v]> d)
  | k :: ks, [] => make_row ks [] (<[k := VNone]> d)
  | [], _ => d
  end.

(** The rows of a [DictReader]: the first record gives the field names,
    empty records are passed over. *)
Definition dict_rows (text : string) : list (gmap string pyval) * option exn :=
  match reader_records text with
  | ([], e) => ([], e)
  | (fieldnames :: rs, e) =>
      (map (fun r => make_row fieldnames r ∅)
           (filter (fun r => r <> []) rs), e)
  end.

(** [row[key]] *)
Definition getitem (d : gmap string pyval) (key : string) : result pyval :=
  match d !! key with
  | Some v => Ok v
  | None => Raise (KeyError key)
  end.

End Csv.

(** ** The file system and [os.path] *)

Inductive node : Type :=
  | File (content : string)
  | Dir.

(** Paths are compared as they are written; the directories that hold the
    files exist, [FileManager.__init__] creates them. *)
Abbreviation filesystem := (gmap string node).

Module OsPath.

Definition exists_ (fs : filesystem) (p : string) : bool :=
  match fs !! p with Some _ => true | None => false end.

Fixpoint ends_with_sep (p : string) : bool :=
  match p with
  | EmptyString => false
  | String c EmptyString => Ascii.eqb c "/"
  | String _ r => ends_with_sep r
  end.

(** [os.path.join(a, b)] of [posixpath]. *)
Definition join (a b : string) : string :=
  if String.prefix "/" b then b
  else if negb (PyStr.truthy a) || ends_with_sep a then a ++ b
  else a ++ "/" ++ b.

(** [os.path.basename(p)]: what follows the last separator. *)
Fixpoint basename_from (cur_rev : list ascii) (p : string) : string :=
  match p with
  | EmptyString => string_of_list_ascii (rev cur_rev)
  | String c r =>
      if Ascii.eqb c "/" then basename_from [] r
      else basename_from (c :: cur_rev) r
  end.

Definition basename (p : string) : string := basename_from [] p.

End OsPath.

(** [shutil.copy2(src, dst)] on file contents: a directory as destination
    receives the file under its base name. *)
Definition copy2 (fs : filesystem) (src dst : string) : result filesystem :=
  let dst :=
    match fs !! dst with
    | Some Dir => OsPath.join dst (OsPath.basename src)
    | _ => dst
    end in
  if String.eqb src dst then Raise (OSError "SameFileError")
  else
    match fs !! src, fs !! dst with
    | Some (File c), Some Dir => Raise (OSError "IsADirectoryError")
    | Some (File c), _ => Ok (<[dst := File c]> fs)
    | Some Dir, _ => Raise (OSError "IsADirectoryError")
    | None, _ => Raise (OSError "FileNotFoundError")
    end.

(** ** [FileManager] *)

(** What the store prints, by kind. *)
Inductive event : Type :=
  | Error_saving (e : exn)
  | Warning_skipping (e : exn)
  | Error_loading (e : exn)
  | Backup_not_found (name : string)
  | Data_restored (name : string)
  | Error_restoring (e : exn).

Record FileManager : Type := mkFileManager {
  filename : string;
  backup_dir : string
}.

Definition header : list pyval :=
  [VStr "Date"; VStr "Category"; VStr "Amount"; VStr "Description"].

Definition expense_row (e : Expense) : list pyval :=
  [VStr (date e); VStr (category e); VFloat (amount e); VStr (description e)].

(** The text [save_expenses] writes. *)
Definition csv_text (expenses : list Expense) : string :=
  Csv.writerow header ++ String.concat "" (map (fun e => Csv.writerow (expense_row e)) expenses).

(** [open(path, 'w')] fails on a directory. *)
Definition save_expenses (fm : FileManager) (fs : filesystem) (expenses : list Expense)
  : bool * filesystem * list event :=
  match fs !! filename fm with
  | Some Dir => (false, fs, [Error_saving (OSError "IsADirectoryError")])
  | _ => (true, <[filename fm := File (csv_text expenses)]> fs, [])
  end.

(** The [Expense(...)] call of the loading loop: the four subscripts are
    evaluated first, in the order written. *)
Definition expense_of_row (row : gmap string pyval) : result Expense :=
  let* a := Csv.getitem row "Amount" in
  let* c := Csv.getitem row "Category" in
  let* d := Csv.getitem row "Date" in
  let* desc := Csv.getitem row "Description" in
  Expense_init a c d desc.

(** The [for] loop of [load_expenses]: a [ValueError] is caught inside the
    loop and the row is skipped; any other exception leaves the loop. *)
Fixpoint load_rows (rows : list (gmap string pyval)) (expenses : list Expense)
  : list Expense * list event * option exn :=
  match rows with
  | [] => (expenses, [], None)
  | row :: rest =>
      match expense_of_row row with
      | Ok e => load_rows rest (expenses ++ [e])%list
      | Raise (ValueError msg) =>
          let '(es, log, err) := load_rows rest expenses in
          (es, Warning_skipping (ValueError msg) :: log, err)
      | Raise e => (expenses, [], Some e)
      end
  end.

(** The text of a file is read through a [DictReader]; an error of the
    reader comes after the rows it has produced. *)
Definition load_text (text : string) : list Expense * list event :=
  let '(rows, reader_error) := Csv.dict_rows text in
  let '(expenses, log, err) := load_rows rows [] in
  match err, reader_error with
  | Some e, _ => (expenses, (log ++ [Error_loading e])%list)
  | None, Some e => (expenses, (log ++ [Error_loading e])%list)
  | None, None => (expenses, log)
  end.

Definition load_expenses (fm : FileManager) (fs : filesystem) : list Expense * list event :=
  match fs !! filename fm with
  | None => ([], [])
  | Some Dir => ([], [Error_loading (OSError "IsADirectoryError")])
  | Some (File text) => load_text text
  end.

Definition restore_from_backup (fm : FileManager) (fs : filesystem) (backup_filename : string)
  : bool * filesystem * list event :=
  let backup_path := OsPath.join (backup_dir fm) backup_filename in
  if negb (OsPath.exists_ fs backup_path)
  then (false, fs, [Backup_not_found backup_filename])
  else
    match copy2 fs backup_path (filename fm) with
    | Ok fs' => (true, fs', [Data_restored backup_filename])
    | Raise e => (false, fs, [Error_restoring e])
    end.

(** ** [ReportGenerator] *)

(** A number of the summary: the literal [0] of the empty case is an [int],
    the computed values are floats. *)
Inductive pynum : Type :=
  | NInt (n : Z)
  | NFloat (x : spec_float).

Record Summary : Type := mkSummary {
  total : pynum;
  count : Z;
  average : pynum;
  categories : gmap string spec_float
}.

(** [sum(xs)] of floats: the start value 0 and the additions from left to
    right, each rounded, as CPython computes it up to version 3.11 (later
    versions carry a compensation term). The sum of the amounts of one
    category is accumulated by the loop in the same way. *)
Definition float_sum (xs : list spec_float) : spec_float :=
  fold_left PyFloat.add xs PyFloat.zero.

(** [x / n] for a float and an [int]: an error exactly when [n] is 0. *)
Definition truediv (x : spec_float) (n : Z) : result spec_float :=
  if n =? 0 then Raise ZeroDivisionError
  else Ok (SFdiv PyFloat.prec PyFloat.emax x (PyFloat.of_Z n)).

(** [categories[exp.category] += exp.amount] on a [defaultdict(float)]. *)
Definition add_to_category (m : gmap string spec_float) (e : Expense)
  : gmap string spec_float :=
  <[category e := PyFloat.add (default PyFloat.zero (m !! category e)) (amount e)]> m.

Definition generate_summary (expenses : list Expense) : result Summary :=
  match expenses with
  | [] => Ok (mkSummary (NInt 0) 0 (NInt 0) ∅)
  | _ =>
      let total := float_sum (map amount expenses) in
      let count := Z.of_nat (length expenses) in
      let* average := truediv total count in
      let categories := fold_left add_to_category expenses ∅ in
      Ok (mkSummary (NFloat total) count (NFloat average) categories)
  end.

(** [sorted(l, key=lambda x: x.amount, reverse=True)]: the stable sort on
    decreasing amount. An expense goes behind those of the later ones that
    have a greater amount and before the others. The sort compares with [<]
    only; its result is fixed by stability when the keys are totally ordered,
    which holds when no amount is NaN. *)
Fixpoint insert_desc (x : Expense) (l : list Expense) : list Expense :=
  match l with
  | [] => [x]
  | y :: r =>
      if PyFloat.ltb (amount x) (amount y) then y :: insert_desc x r
      else x :: l
  end.

Definition sorted_desc (l : list Expense) : list Expense :=
  fold_right insert_desc [] l.

(** [l[:n]]: a negative [n] counts from the end. *)
Definition slice_to {A : Type} (n : Z) (l : list A) : list A :=
  if 0 <=? n then take (Z.to_nat n) l
  else take (Z.to_nat (Z.of_nat (length l) + n)) l.

Definition get_top_expenses (expenses : list Expense) (n : Z) : list Expense :=
  slice_to n (sorted_desc expenses).

Definition search_expenses (expenses : list Expense)
           (keyword category0 start_date end_date : string) : list Expense :=
  let results := expenses in
  let results :=
    if PyStr.truthy keyword
    then List.filter (fun e => PyStr.contains (PyStr.lower keyword) (PyStr.lower (description e))) results
    else results in
  let results :=
    if PyStr.truthy category0
    then List.filter (fun e => String.eqb (category e) category0) results
    else results in
  let results :=
    if PyStr.truthy start_date
    then List.filter (fun e => PyStr.ge (date e) start_date) results
    else results in
  let results :=
    if PyStr.truthy end_date
    then List.filter (fun e => PyStr.le (date e) end_date) results
    else results in
  results.

(** * Definitions used by the statements *)

(** ** Order of the amounts *)

Module FloatOrder.

(** A rank for the numbers that are not NaN: comparing two of them is
    comparing their ranks component by component. *)
Definition rank (x : spec_float) : Z * Z * Z :=
  match x with
  | S754_nan | S754_zero _ => (0, 0, 0)
  | S754_infinity s => (if s then -2 else 2, 0, 0)
  | S754_finite s m e => if s then (-1, - e, Zneg m) else (1, e, Zpos m)
  end.

Definition lex (a b : Z * Z * Z) : comparison :=
  let '(a1, a2, a3) := a in
  let '(b1, b2, b3) := b in
  match a1 ?= b1 with
  | Eq => match a2 ?= b2 with Eq => a3 ?= b3 | o => o end
  | o => o
  end.

(** [x >= y], as the sort sees it: [x < y] does not hold. *)
Definition geb (x y : spec_float) : bool := negb (PyFloat.ltb x y).

(** Neither is less than the other. *)
Definition tied (x y : spec_float) : bool := geb x y && geb y x.

End FloatOrder.

(** ** Dates, files and criteria of the statements *)

(** The format as the specification words it: four digits, a dash, two
    digits, a dash, two digits, naming a day of the calendar. *)
Definition is_iso_date (s : string) : bool :=
  match s with
  | String y1 (String y2 (String y3 (String y4 (String d1
      (String m1 (String m2 (String d2 (String a1 (String a2 EmptyString))))))))) =>
      forallb PyStr.is_digit [y1; y2; y3; y4; m1; m2; a1; a2]
      && Ascii.eqb d1 "-" && Ascii.eqb d2 "-"
      && Strptime.valid_ymd
           (1000 * PyStr.digit_val y1 + 100 * PyStr.digit_val y2
            + 10 * PyStr.digit_val y3 + PyStr.digit_val y4)
           (10 * PyStr.digit_val m1 + PyStr.digit_val m2)
           (10 * PyStr.digit_val a1 + PyStr.digit_val a2)
  | _ => false
  end.

Definition data_file : FileManager := mkFileManager "data/expenses.csv" "backups".

(** A file whose second line lacks the description, followed by a complete
    and valid line. *)
Definition short_row_text : string :=
  "Date,Category,Amount,Description" ++ Csv.line_terminator
  ++ "2024-01-01,Food,10" ++ Csv.line_terminator
  ++ "2024-01-02,Food,20,ok" ++ Csv.line_terminator.

(** The expense that the amount ["0.004"] constructs: the guard sees a
    positive number, the rounding stores 0.0. *)
Definition tiny_expense : Expense :=
  mkExpense PyFloat.zero "Food" "2024-03-01" "tiny".

(** The criteria as the specification words them: each applies only when its
    text is not empty, and all of them must hold. *)
Definition matches (keyword category0 start_date end_date : string) (e : Expense) : bool :=
  (negb (PyStr.truthy keyword)
   || PyStr.contains (PyStr.lower keyword) (PyStr.lower (description e)))
  && (negb (PyStr.truthy category0) || String.eqb (category e) category0)
  && (negb (PyStr.truthy start_date) || PyStr.ge (date e) start_date)
  && (negb (PyStr.truthy end_date) || PyStr.le (date e) end_date).

Definition category_amounts (c : string) (expenses : list Expense) : list spec_float :=
  map amount (List.filter (fun e => String.eqb (category e) c) expenses).

Definition has_category (c : string) (expenses : list Expense) : bool :=
  existsb (fun e => String.eqb (category e) c) expenses.

(** The order of the result: an expense is not below a later one. *)
Definition not_below (a b : Expense) : Prop :=
  FloatOrder.geb (amount a) (amount b) = true.

Definition no_nan (l : list Expense) : Prop :=
  Forall (fun e => PyFloat.is_nan (amount e) = false) l.

Definition two_expenses : list Expense :=
  [mkExpense (PyFloat.of_Z 50) "Food" "2024-01-01" "small";
   mkExpense (PyFloat.of_Z 500) "Other" "2024-01-02" "big"].

(** ** The reader as a run over the characters of a text *)

Module CsvStream.
Import Csv.

(** Where the text stands in its line: at the start of a line, inside a
    line, or behind a CR that may still be followed by LF. *)
Inductive position : Type := Fresh | Mid | AfterCR.

Definition after_char (c : ascii) : position :=
  if Ascii.eqb c LF then Fresh else if Ascii.eqb c CR then AfterCR else Mid.

(** The characters of a text as the reader receives them, with the
    end-of-line mark ([None]) behind every line. *)
Fixpoint tokens (p : position) (s : string) : list (option ascii) :=
  match s with
  | EmptyString => match p with Fresh => [] | _ => [None] end
  | String c r =>
      match p with
      | AfterCR =>
          if Ascii.eqb c LF then Some c :: None :: tokens Fresh r
          else None :: Some c :: tokens (after_char c) r
      | _ =>
          if Ascii.eqb c LF then Some c :: None :: tokens Fresh r
          else Some c :: tokens (after_char c) r
      end
  end.

(** The end of the input: a field or a quoted field that is still open is
    closed and makes a last record. *)
Definition at_end (rd : reader) : list (list string) * option exn :=
  if negb (field_len rd =? 0) || state_eqb (st rd) IN_QUOTED_FIELD
  then ([fields (parse_save_field rd)], None)
  else ([], None).

(** The records that the reader produces over a sequence of characters and
    end-of-line marks; a record is complete when the reader is back in
    [START_RECORD] behind a mark. *)
Fixpoint run (rd : reader) (ts : list (option ascii)) : list (list string) * option exn :=
  match ts with
  | [] => at_end rd
  | t :: ts' =>
      match parse_process_char rd t with
      | Raise e => ([], Some e)
      | Ok rd' =>
          match t with
          | None =>
              if state_eqb (st rd') START_RECORD then
                let '(rs, e) := run parse_reset ts' in (fields rd' :: rs, e)
              else run rd' ts'
          | Some _ => run rd' ts'
          end
      end
  end.

(** The run over the characters of a text that starts at position [p] of
    its line. *)
Definition go (rd : reader) (p : position) (s : string) : list (list string) * option exn :=
  run rd (tokens p s).

(** A complete record, then what the rest of the text gives. *)
Definition emit (fs : list string) (rest : string) : list (list string) * option exn :=
  let '(rs, e) := go parse_reset Fresh rest in (fs :: rs, e).

(** The position in the line behind the characters of [s]. *)
Fixpoint position_after (p : position) (s : string) : position :=
  match s with
  | EmptyString => p
  | String c r => position_after (after_char c) r
  end.

(** The field buffer after the characters of [s] are added to [acc]. *)
Definition chars_rev (s : string) (acc : list ascii) : list ascii :=
  (rev (list_ascii_of_string s) ++ acc)%list.

Definition len (s : string) : Z := Z.of_nat (String.length s).

(** The characters of a part of a line, without the end-of-line mark. *)
Fixpoint feed_chars (rd : reader) (cs : list ascii) : result reader :=
  match cs with
  | [] => Ok rd
  | c :: r => let* rd' := parse_process_char rd (Some c) in feed_chars rd' r
  end.

(** The position behind the characters [cur] of an unfinished line. *)
Definition start_position (cur : list ascii) : position :=
  match cur with [] => Fresh | _ => Mid end.

(** The end-of-line marks around a character. *)
Definition marks_before (p : position) (c : ascii) : list (option ascii) :=
  match p with
  | AfterCR => if Ascii.eqb c LF then [] else [None]
  | _ => []
  end.

Definition marks_after (c : ascii) : list (option ascii) :=
  if Ascii.eqb c LF then [None] else [].

(** The field that [parse_save_field] appends for the buffer [fr]. *)
Definition saved (fr : list ascii) : string := string_of_list_ascii (rev fr).

(** The text of a row of four fields, as [writerow] writes it. *)
Definition row_text (a b c d : string) : string :=
  writerow [VStr a; VStr b; VStr c; VStr d].

(** The field is within the field limit of the reader. *)
Definition fits (s : string) : Prop := len s <= field_limit.

Definition row_fits (r : string * string * string * string) : Prop :=
  let '(a, b, c, d) := r in fits a /\ fits b /\ fits c /\ fits d.

Definition row_fields (r : string * string * string * string) : list string :=
  let '(a, b, c, d) := r in [a; b; c; d].

Definition rows_text (rows : list (string * string * string * string)) : string :=
  String.concat "" (map (fun r => let '(a, b, c, d) := r in row_text a b c d) rows).

End CsvStream.

(** ** Expenses that the store gives back *)

(** The four fields of the row written for an expense, as text. *)
Definition expense_fields (e : Expense) : string * string * string * string :=
  (date e, category e, PyFloat.repr (amount e), description e).

Definition header_fields : string * string * string * string :=
  ("Date", "Category", "Amount", "Description").

(** The expense is constructed again from the text of its own fields. *)
Definition rereads (e : Expense) : Prop :=
  Expense_init (VStr (PyFloat.repr (amount e))) (VStr (category e))
               (VStr (date e)) (VStr (description e)) = Ok e.

(** What the round trip needs of an expense: it is constructed again from
    its own fields, and these are within the field limit. *)
Definition storable (e : Expense) : Prop :=
  rereads e /\ CsvStream.row_fits (expense_fields e).

(** The expense is the result of a call of the constructor. *)
Definition constructed (e : Expense) : Prop :=
  exists a c d s, Expense_init a c d s = Ok e.

(** The text written for the amount is read back as the amount. *)
Definition amount_rereads (e : Expense) : Prop :=
  _validate_amount (VStr (PyFloat.repr (amount e))) = Ok (amount e).

(** Two expenses; the description of the first holds the delimiter, quotes
    and a line break. *)
Definition sample_expenses : list Expense :=
  [mkExpense (PyFloat.of_decimal false 125 (-1)) "Food" "2024-01-15"
             ("tea, " ++ String Csv.QUOTE ("two" ++ String Csv.QUOTE (String Csv.LF "cups")));
   mkExpense (PyFloat.of_Z 500) "Transport" "2024-02-29" ""].

(** * Properties *)

(** ** Amount validation *)

(** [_validate_amount] succeeds exactly on the inputs that [float] converts
    and for which [amt <= 0] is false; the stored value is the rounding. *)
Lemma validate_amount_spec (v : pyval) :
  _validate_amount v =
    match to_float v with
    | Ok x => if PyFloat.leb x PyFloat.zero then Raise InvalidAmount
              else Ok (PyFloat.round2 x)
    | Raise _ => Raise InvalidAmount
    end.
Proof.
  unfold _validate_amount, validate_amount_body.
  destruct v as [|s|x]; simpl.
  - reflexivity.
  - destruct (PyFloat.of_string s) as [x|]; simpl; [|reflexivity].
    destruct (PyFloat.leb x PyFloat.zero); reflexivity.
  - destruct (PyFloat.leb x PyFloat.zero); reflexivity.
Qed.

(** No comparison with NaN holds, so the guard [amt <= 0] lets it through. *)
Lemma nan_not_le (y : spec_float) : PyFloat.leb PyFloat.nan y = false.
Proof. reflexivity. Qed.

Lemma nan_not_gt (y : spec_float) : PyFloat.ltb y PyFloat.nan = false.
Proof. destruct y; reflexivity. Qed.

(** C10: the amounts ["nan"] and ["inf"] are converted by [float], pass the
    guard [amt <= 0] and are stored as they are: an [Expense] whose amount is
    not a finite number is constructed. *)
Theorem C10_non_finite_amount_accepted :
  Expense_init (VStr "nan") (VStr "Food") (VStr "2024-01-15") (VStr "lunch")
    = Ok (mkExpense PyFloat.nan "Food" "2024-01-15" "lunch")
  /\ Expense_init (VStr "inf") (VStr "Food") (VStr "2024-01-15") (VStr "lunch")
    = Ok (mkExpense PyFloat.inf "Food" "2024-01-15" "lunch")
  /\ PyFloat.leb PyFloat.nan PyFloat.zero = false
  /\ PyFloat.leb PyFloat.inf PyFloat.zero = false
  /\ PyFloat.is_finite PyFloat.nan = false
  /\ PyFloat.is_finite PyFloat.inf = false.
Proof. repeat split; vm_compute; reflexivity. Qed.

(** C4: the amount ["nan"] is converted by [float] and is not greater than
    0, yet the constructor succeeds; [InvalidAmount] is not raised. *)
Theorem C4_nan_amount_not_rejected :
  to_float (VStr "nan") = Ok PyFloat.nan
  /\ PyFloat.ltb PyFloat.zero PyFloat.nan = false
  /\ _validate_amount (VStr "nan") = Ok PyFloat.nan
  /\ _validate_amount (VStr "nan") <> Raise InvalidAmount.
Proof.
  assert (H : _validate_amount (VStr "nan") = Ok PyFloat.nan) by (vm_compute; reflexivity).
  repeat split; try (vm_compute; reflexivity); try exact H.
  rewrite H. discriminate.
Qed.

(** ** Date validation *)

(** An accepted date is stored as it was given. *)
Lemma validate_date_unchanged (v : pyval) (s : string) :
  _validate_date v = Ok s -> v = VStr s.
Proof.
  destruct v as [|t|x]; simpl; try discriminate.
  destruct (Strptime.strptime t); intros H; inversion H; reflexivity.
Qed.

(** What is not accepted raises [InvalidDate]. *)
Lemma validate_date_failure (s : string) (e : exn) :
  _validate_date (VStr s) = Raise e -> e = InvalidDate.
Proof.
  simpl. destruct (Strptime.strptime s); intros H; inversion H; reflexivity.
Qed.

Example date_examples :
  _validate_date (VStr "2024-13-01") = Raise InvalidDate
  /\ _validate_date (VStr "24-01-01") = Raise InvalidDate
  /\ _validate_date (VStr "2023-02-29") = Raise InvalidDate
  /\ _validate_date (VStr "2024-02-29") = Ok "2024-02-29".
Proof. repeat split; vm_compute; reflexivity. Qed.

(** *** Dates in the zero-padded form are accepted *)

Lemma digit_cases (c : ascii) :
  PyStr.is_digit c = true ->
  In c ["0"; "1"; "2"; "3"; "4"; "5"; "6"; "7"; "8"; "9"]%char.
Proof.
  destruct c as [[] [] [] [] [] [] [] []]; vm_compute; intros H;
    try discriminate; tauto.
Qed.

Lemma digit_val_range (c : ascii) :
  PyStr.is_digit c = true -> 0 <= PyStr.digit_val c <= 9.
Proof.
  unfold PyStr.is_digit, PyStr.between, PyStr.digit_val.
  rewrite andb_true_iff, !Z.leb_le. lia.
Qed.

Lemma days_in_month_le (y m : Z) : Strptime.days_in_month y m <= 31.
Proof.
  unfold Strptime.days_in_month.
  repeat match goal with |- context [if ?b then _ else _] => destruct b end; lia.
Qed.

Lemma year_group (y1 y2 y3 y4 : ascii) (rest : string) {A : Type}
      (k : string -> string -> option A) :
  PyStr.is_digit y1 = true -> PyStr.is_digit y2 = true ->
  PyStr.is_digit y3 = true -> PyStr.is_digit y4 = true ->
  Strptime.first_alt Strptime.alts_Y
    (String y1 (String y2 (String y3 (String y4 rest)))) k
  = k (String y1 (String y2 (String y3 (String y4 EmptyString)))) rest.
Proof.
  intros H1 H2 H3 H4. simpl. rewrite H1, H2, H3, H4.
  destruct (k _ rest); reflexivity.
Qed.

Lemma year_value (y1 y2 y3 y4 : ascii) :
  PyStr.is_digit y1 = true -> PyStr.is_digit y2 = true ->
  PyStr.is_digit y3 = true -> PyStr.is_digit y4 = true ->
  Strptime.int_of (String y1 (String y2 (String y3 (String y4 EmptyString))))
  = 1000 * PyStr.digit_val y1 + 100 * PyStr.digit_val y2
    + 10 * PyStr.digit_val y3 + PyStr.digit_val y4.
Proof.
  intros H1 H2 H3 H4. unfold Strptime.int_of. cbn [PyStr.lstrip_by].
  assert (Hsp : forall c, PyStr.is_digit c = true -> Strptime.ch " " c = false).
  { intros c Hc. destruct (digit_cases c Hc) as [<-|[<-|[<-|[<-|[<-|[<-|[<-|[<-|[<-|[<-|[]]]]]]]]]]]; reflexivity. }
  rewrite (Hsp y1 H1). cbn [PyFloat.take_digits]. rewrite H1, H2, H3, H4.
  cbn [fst]. lia.
Qed.

Lemma two_digit_value (c1 c2 : ascii) :
  PyStr.is_digit c1 = true -> PyStr.is_digit c2 = true ->
  Strptime.int_of (String c1 (String c2 EmptyString))
  = 10 * PyStr.digit_val c1 + PyStr.digit_val c2.
Proof.
  intros H1 H2. unfold Strptime.int_of. cbn [PyStr.lstrip_by].
  assert (Hsp : Strptime.ch " " c1 = false).
  { destruct (digit_cases c1 H1) as [<-|[<-|[<-|[<-|[<-|[<-|[<-|[<-|[<-|[<-|[]]]]]]]]]]]; reflexivity. }
  rewrite Hsp. cbn [PyFloat.take_digits]. rewrite H1, H2. cbn [fst]. lia.
Qed.

Ltac each_digit c H :=
  destruct (digit_cases c H) as [<-|[<-|[<-|[<-|[<-|[<-|[<-|[<-|[<-|[<-|[]]]]]]]]]]].

(** A zero-padded month between 01 and 12 is taken by one of the two-digit
    alternatives of [%m]. *)
Lemma month_group (m1 m2 : ascii) (rest : string) {A : Type}
      (k : string -> string -> option A) :
  PyStr.is_digit m1 = true -> PyStr.is_digit m2 = true ->
  ((1 <=? 10 * PyStr.digit_val m1 + PyStr.digit_val m2)
   && (10 * PyStr.digit_val m1 + PyStr.digit_val m2 <=? 12)) = true ->
  is_Some (k (String m1 (String m2 EmptyString)) rest) ->
  Strptime.first_alt Strptime.alts_m (String m1 (String m2 rest)) k
  = k (String m1 (String m2 EmptyString)) rest.
Proof.
  intros H1 H2 Hb [x Hx].
  each_digit m1 H1; each_digit m2 H2;
    try (vm_compute in Hb; discriminate Hb);
    vm_compute; vm_compute in Hx; rewrite Hx; reflexivity.
Qed.

(** A zero-padded day between 01 and 31 at the end of the text is taken
    by one of the two-digit alternatives of [%d]. *)
Lemma day_group (a1 a2 : ascii) {A : Type} (k : string -> string -> option A) :
  PyStr.is_digit a1 = true -> PyStr.is_digit a2 = true ->
  ((1 <=? 10 * PyStr.digit_val a1 + PyStr.digit_val a2)
   && (10 * PyStr.digit_val a1 + PyStr.digit_val a2 <=? 31)) = true ->
  is_Some (k (String a1 (String a2 EmptyString)) EmptyString) ->
  Strptime.first_alt Strptime.alts_d (String a1 (String a2 EmptyString)) k
  = k (String a1 (String a2 EmptyString)) EmptyString.
Proof.
  intros H1 H2 Hb [x Hx].
  each_digit a1 H1; each_digit a2 H2;
    try (vm_compute in Hb; discriminate Hb);
    vm_compute; vm_compute in Hx; rewrite Hx; reflexivity.
Qed.

(** Every date in the zero-padded form is accepted. *)
Lemma iso_date_accepted (s : string) :
  is_iso_date s = true -> _validate_date (VStr s) = Ok s.
Proof.
  unfold is_iso_date.
  destruct s as [|y1 [|y2 [|y3 [|y4 [|d1 [|m1 [|m2 [|d2 [|a1 [|a2 [|? ?]]]]]]]]]]];
    try discriminate.
  simpl forallb. rewrite !andb_true_iff.
  intros [[[(H1 & H2 & H3 & H4 & Hm1 & Hm2 & Ha1 & Ha2 & _) Hd1] Hd2] Hv].
  apply Ascii.eqb_eq in Hd1, Hd2. subst d1 d2.
  assert (Hmb : ((1 <=? 10 * PyStr.digit_val m1 + PyStr.digit_val m2)
                 && (10 * PyStr.digit_val m1 + PyStr.digit_val m2 <=? 12)) = true).
  { unfold Strptime.valid_ymd in Hv. rewrite !andb_true_iff in Hv.
    rewrite andb_true_iff. tauto. }
  assert (Hdb : ((1 <=? 10 * PyStr.digit_val a1 + PyStr.digit_val a2)
                 && (10 * PyStr.digit_val a1 + PyStr.digit_val a2 <=? 31)) = true).
  { unfold Strptime.valid_ymd in Hv. rewrite !andb_true_iff, !Z.leb_le in Hv.
    rewrite andb_true_iff, !Z.leb_le.
    pose proof (days_in_month_le
                  (1000 * PyStr.digit_val y1 + 100 * PyStr.digit_val y2
                   + 10 * PyStr.digit_val y3 + PyStr.digit_val y4)
                  (10 * PyStr.digit_val m1 + PyStr.digit_val m2)).
    lia. }
  unfold _validate_date, Strptime.strptime, Strptime.regex_match.
  rewrite (year_group y1 y2 y3 y4 _ _ H1 H2 H3 H4).
  cbn [Strptime.literal]. rewrite Ascii.eqb_refl.
  rewrite (month_group m1 m2 _ _ Hm1 Hm2 Hmb);
    cbn [Strptime.literal]; rewrite ?Ascii.eqb_refl;
    rewrite (day_group a1 a2 _ Ha1 Ha2 Hdb); try (eexists; reflexivity).
  rewrite (year_value y1 y2 y3 y4 H1 H2 H3 H4),
    (two_digit_value m1 m2 Hm1 Hm2), (two_digit_value a1 a2 Ha1 Ha2), Hv.
  reflexivity.
Qed.

(** C2: the date ["2024-1-5"] is not in the zero-padded form, and the
    constructor accepts it and stores it as given. *)
Theorem C2_unpadded_date_accepted :
  is_iso_date "2024-1-5" = false
  /\ _validate_date (VStr "2024-1-5") = Ok "2024-1-5"
  /\ Expense_init (VStr "12.50") (VStr "Food") (VStr "2024-1-5") (VStr "lunch")
     = Ok (mkExpense (PyFloat.of_decimal false 125 (-1)) "Food" "2024-1-5" "lunch").
Proof. repeat split; vm_compute; reflexivity. Qed.

(** ** Loading and saving *)

(** An absent file loads as the empty collection, and nothing is printed. *)
Lemma load_absent (fm : FileManager) (fs : filesystem) :
  fs !! filename fm = None -> load_expenses fm fs = ([], []).
Proof. intros H. unfold load_expenses. rewrite H. reflexivity. Qed.

(** A row that raises [ValueError] is skipped with a warning and the rows
    after it are still read. *)
Lemma load_rows_skips_invalid (row : gmap string pyval) (rest : list (gmap string pyval))
      (acc : list Expense) (msg : string) :
  expense_of_row row = Raise (ValueError msg) ->
  load_rows (row :: rest) acc =
    (let '(es, log, err) := load_rows rest acc in
     (es, Warning_skipping (ValueError msg) :: log, err)).
Proof. intros H. simpl. rewrite H. reflexivity. Qed.

(** C8: a row with three fields reaches [description.strip()] with [None];
    the [AttributeError] is not a [ValueError], so it leaves the loop, and the
    valid row after it is not loaded. The same valid row alone is loaded. *)
Theorem C8_short_row_aborts_load :
  load_expenses data_file {[ filename data_file := File short_row_text ]}
    = ([], [Error_loading AttributeError])
  /\ load_text ("Date,Category,Amount,Description" ++ Csv.line_terminator
               ++ "2024-01-02,Food,20,ok" ++ Csv.line_terminator)
    = ([mkExpense (PyFloat.of_Z 20) "Food" "2024-01-02" "ok"], []).
Proof.
  split.
  - unfold load_expenses. rewrite lookup_singleton_eq. vm_compute. reflexivity.
  - vm_compute. reflexivity.
Qed.

(** C1: an expense constructed from the amount ["0.004"] is saved with the
    amount text [0.0]; loading rejects that row, so the collection read back
    is empty. *)
Theorem C1_roundtrip_loses_rounded_zero :
  Expense_init (VStr "0.004") (VStr "Food") (VStr "2024-03-01") (VStr "tiny")
    = Ok tiny_expense
  /\ (exists fs',
        save_expenses data_file ∅ [tiny_expense] = (true, fs', [])
        /\ fs' !! filename data_file
           = Some (File ("Date,Category,Amount,Description" ++ Csv.line_terminator
                         ++ "2024-03-01,Food,0.0,tiny" ++ Csv.line_terminator))
        /\ load_expenses data_file fs'
           = ([], [Warning_skipping InvalidAmount])).
Proof.
  split; [vm_compute; reflexivity|].
  eexists. split; [|split].
  - unfold save_expenses. rewrite lookup_empty. reflexivity.
  - rewrite lookup_insert_eq. vm_compute. reflexivity.
  - unfold load_expenses. rewrite lookup_insert_eq. vm_compute. reflexivity.
Qed.

(** ** Category validation *)

Lemma in_categories_In (c : string) : in_categories c = true <-> In c CATEGORIES.
Proof.
  unfold in_categories. rewrite existsb_exists. split.
  - intros (x & Hx & Heq). apply String.eqb_eq in Heq. subst. exact Hx.
  - intros H. exists c. split; [exact H | apply String.eqb_refl].
Qed.

(** Every name of the enumeration is its own normal form: what is stored is
    accepted again, unchanged. *)
Lemma categories_normal (c : string) :
  In c CATEGORIES -> PyStr.title (PyStr.strip c) = c.
Proof.
  intros H. simpl in H.
  repeat (destruct H as [H | H]; [subst c; vm_compute; reflexivity |]).
  contradiction.
Qed.

(** C5: the category is trimmed and title-cased; the constructor succeeds
    exactly when the result is one of the eight names, and then stores that
    result; in every other case it raises [InvalidCategory], whose message
    lists the eight names. *)
Theorem C5_category_validation (s : string) :
  let normalized := PyStr.title (PyStr.strip s) in
  (forall c, _validate_category (VStr s) = Ok c
             <-> c = normalized /\ In normalized CATEGORIES)
  /\ (_validate_category (VStr s) = Raise InvalidCategory
      <-> ~ In normalized CATEGORIES)
  /\ (forall e, _validate_category (VStr s) = Raise e -> e = InvalidCategory)
  /\ CATEGORIES = ["Food"; "Transport"; "Entertainment"; "Shopping"; "Utilities";
                   "Healthcare"; "Education"; "Other"]
  /\ InvalidCategory
     = ValueError "Invalid category. Choose from: Food, Transport, Entertainment, Shopping, Utilities, Healthcare, Education, Other".
Proof.
  intros normalized.
  assert (Hdef : _validate_category (VStr s)
                 = if in_categories normalized then Ok normalized
                   else Raise InvalidCategory) by reflexivity.
  rewrite Hdef. pose proof (in_categories_In normalized) as Hin.
  destruct (in_categories normalized).
  - assert (HIn : In normalized CATEGORIES) by (apply Hin; reflexivity).
    split; [|split; [|split; [|split]]]; try reflexivity.
    + intros c. split.
      * intros Hc. inversion Hc. split; [reflexivity | exact HIn].
      * intros [-> _]. reflexivity.
    + split; [discriminate | intros Hnot; contradiction].
    + intros e He. discriminate.
  - assert (HnIn : ~ In normalized CATEGORIES).
    { intros HIn. apply Hin in HIn. discriminate. }
    split; [|split; [|split; [|split]]]; try reflexivity.
    + intros c. split; [discriminate | intros [_ HIn]; contradiction].
    + split; [intros _; exact HnIn | reflexivity].
    + intros e He. inversion He. reflexivity.
Qed.

Example category_examples :
  _validate_category (VStr "  fOOD ") = Ok "Food"
  /\ _validate_category (VStr "health care") = Raise InvalidCategory
  /\ _validate_category (VStr "Groceries") = Raise InvalidCategory.
Proof. repeat split; vm_compute; reflexivity. Qed.

(** ** Restore *)

(** C9: when the path of the named backup does not exist, the restore returns
    [False], reports that the backup was not found, and leaves the file system,
    the primary file with it, as it was. *)
Theorem C9_restore_missing_backup (fm : FileManager) (fs : filesystem) (name : string) :
  OsPath.exists_ fs (OsPath.join (backup_dir fm) name) = false ->
  restore_from_backup fm fs name = (false, fs, [Backup_not_found name]).
Proof.
  intros H. unfold restore_from_backup. rewrite H. reflexivity.
Qed.

(** The theorem at a file system that holds the primary file and no
    backup. *)
Lemma C9_restore_missing_backup_witness :
  let fs : filesystem := {[ "data/expenses.csv" := File "Date,Category,Amount,Description" ]} in
  OsPath.exists_ fs (OsPath.join (backup_dir data_file) "nonexistent.csv") = false
  /\ restore_from_backup data_file fs "nonexistent.csv"
     = (false, fs, [Backup_not_found "nonexistent.csv"]).
Proof.
  intros fs.
  assert (H : OsPath.exists_ fs (OsPath.join (backup_dir data_file) "nonexistent.csv") = false).
  { unfold OsPath.exists_, fs. rewrite lookup_singleton_ne; [reflexivity | discriminate]. }
  split; [exact H | apply (C9_restore_missing_backup data_file fs "nonexistent.csv" H)].
Defined.

(** ** Search *)

Lemma filter_filter {A : Type} (f g : A -> bool) (l : list A) :
  List.filter f (List.filter g l) = List.filter (fun x => g x && f x) l.
Proof.
  induction l as [|x l IH]; simpl; [reflexivity|].
  destruct (g x); simpl; [destruct (f x)|]; rewrite ?IH; reflexivity.
Qed.

Lemma filter_true {A : Type} (l : list A) : List.filter (fun _ => true) l = l.
Proof. induction l as [|x l IH]; simpl; [|rewrite IH]; reflexivity. Qed.

Lemma filter_optional {A : Type} (b : bool) (f : A -> bool) (l : list A) :
  (if b then List.filter f l else l) = List.filter (fun x => negb b || f x) l.
Proof. destruct b; simpl; [reflexivity | symmetry; apply filter_true]. Qed.

Lemma search_is_filter (expenses : list Expense) (k c s e : string) :
  search_expenses expenses k c s e = List.filter (matches k c s e) expenses.
Proof.
  unfold search_expenses.
  rewrite !filter_optional, !filter_filter.
  apply List.filter_ext. intros x. unfold matches.
  rewrite !andb_assoc. reflexivity.
Qed.

(** C7: each criterion applies only when it is not empty, the criteria are
    joined by AND, an expense is in the result exactly when it is in the
    collection and meets the supplied criteria, and the result keeps the order
    of the collection. *)
Theorem C7_search_expenses (expenses : list Expense) (k c s e : string) :
  search_expenses expenses k c s e = List.filter (matches k c s e) expenses
  /\ (forall x, In x (search_expenses expenses k c s e)
                <-> In x expenses /\ matches k c s e x = true)
  /\ sublist (search_expenses expenses k c s e) expenses.
Proof.
  rewrite search_is_filter. split; [reflexivity|]. split.
  - intros x. apply List.filter_In.
  - induction expenses as [|x l IH]; simpl; [constructor|].
    destruct (matches k c s e x); [apply sublist_skip | apply sublist_cons]; exact IH.
Qed.

Example search_february :
  let on d := mkExpense (PyFloat.of_Z 10) "Food" d "" in
  search_expenses [on "2024-01-31"; on "2024-02-01"; on "2024-02-15";
                   on "2024-02-29"; on "2024-03-01"]
                  "" "" "2024-02-01" "2024-02-29"
  = [on "2024-02-01"; on "2024-02-15"; on "2024-02-29"].
Proof. vm_compute. reflexivity. Qed.

(** ** Summary *)

Lemma category_amounts_absent (c : string) (expenses : list Expense) :
  has_category c expenses = false -> category_amounts c expenses = [].
Proof.
  unfold has_category, category_amounts.
  induction expenses as [|e l IH]; simpl; [reflexivity|].
  destruct (String.eqb (category e) c); simpl; [discriminate | exact IH].
Qed.

(** The loop over the expenses adds, under each category, the amounts of that
    category in the order of the collection. *)
Lemma fold_add_to_category (expenses : list Expense) (m : gmap string spec_float) (c : string) :
  fold_left add_to_category expenses m !! c =
    if has_category c expenses
    then Some (fold_left PyFloat.add (category_amounts c expenses)
                         (default PyFloat.zero (m !! c)))
    else m !! c.
Proof.
  revert m. induction expenses as [|e l IH]; intros m; [reflexivity|].
  simpl fold_left. rewrite IH.
  pose proof (category_amounts_absent c l) as Habs.
  unfold has_category, category_amounts in *. simpl.
  unfold add_to_category.
  destruct (String.eqb_spec (category e) c) as [Heq | Hne].
  - subst c. rewrite lookup_insert_eq. simpl.
    destruct (existsb _ l); [reflexivity|]. rewrite Habs; reflexivity.
  - rewrite lookup_insert_ne by exact Hne. simpl. reflexivity.
Qed.

Lemma has_category_In (c : string) (expenses : list Expense) :
  has_category c expenses = true <-> In c (map category expenses).
Proof.
  unfold has_category. rewrite existsb_exists, in_map_iff. split.
  - intros (e & He & Heq). apply String.eqb_eq in Heq. exists e. split; assumption.
  - intros (e & Heq & He). exists e. split; [exact He | apply String.eqb_eq; exact Heq].
Qed.

Lemma generate_summary_cons (e : Expense) (l : list Expense) :
  generate_summary (e :: l) =
    Ok (mkSummary
          (NFloat (float_sum (map amount (e :: l))))
          (Z.of_nat (length (e :: l)))
          (NFloat (SFdiv PyFloat.prec PyFloat.emax
                         (float_sum (map amount (e :: l)))
                         (PyFloat.of_Z (Z.of_nat (length (e :: l))))))
          (fold_left add_to_category (e :: l) ∅)).
Proof.
  unfold generate_summary, truediv.
  assert (H : (Z.of_nat (length (e :: l)) =? 0) = false).
  { apply Z.eqb_neq. simpl length. lia. }
  rewrite H. reflexivity.
Qed.

(** C6: the summary is always produced (the division is never by zero);
    the count is the length; the total is the sum of the amounts and the
    average is the total divided by the count, both the integer 0 for the
    empty collection; the mapping has exactly the categories present as keys
    and maps each to the sum of the amounts of its expenses. *)
Theorem C6_generate_summary (expenses : list Expense) :
  exists s,
    generate_summary expenses = Ok s
    /\ count s = Z.of_nat (length expenses)
    /\ total s = match expenses with
                 | [] => NInt 0
                 | _ => NFloat (float_sum (map amount expenses))
                 end
    /\ average s = match expenses with
                   | [] => NInt 0
                   | _ => NFloat (SFdiv PyFloat.prec PyFloat.emax
                                        (float_sum (map amount expenses))
                                        (PyFloat.of_Z (Z.of_nat (length expenses))))
                   end
    /\ (forall c, is_Some (categories s !! c) <-> In c (map category expenses))
    /\ (forall c, In c (map category expenses) ->
                  categories s !! c = Some (float_sum (category_amounts c expenses)))
    /\ (expenses = [] -> s = mkSummary (NInt 0) 0 (NInt 0) ∅).
Proof.
  destruct expenses as [|e l].
  - exists (mkSummary (NInt 0) 0 (NInt 0) ∅). simpl.
    split; [reflexivity|]. split; [reflexivity|]. split; [reflexivity|].
    split; [reflexivity|]. split; [|split].
    + intros c. split; [|intros []].
      intros [x Hx]. rewrite lookup_empty in Hx. discriminate.
    + intros c [].
    + reflexivity.
  - rewrite generate_summary_cons. set (E := e :: l). eexists.
    split; [reflexivity|]. cbn [count total average categories].
    split; [reflexivity|]. split; [reflexivity|]. split; [reflexivity|].
    split; [|split].
    + intros c. rewrite <- has_category_In.
      rewrite (fold_add_to_category E ∅ c), lookup_empty.
      destruct (has_category c E); split; intros H; try reflexivity; try discriminate.
      * eexists; reflexivity.
      * destruct H as [x Hx]; discriminate.
    + intros c H. apply has_category_In in H.
      rewrite (fold_add_to_category E ∅ c), H, lookup_empty. reflexivity.
    + discriminate.
Qed.

Example summary_known_set :
  let food a := mkExpense (PyFloat.of_Z a) "Food" "2024-01-01" "" in
  exists s, generate_summary [food 100; food 200; food 300] = Ok s
    /\ total s = NFloat (PyFloat.of_Z 600) /\ count s = 3
    /\ average s = NFloat (PyFloat.of_Z 200)
    /\ categories s = {[ "Food" := PyFloat.of_Z 600 ]}.
Proof.
  intros food. eexists. split; [reflexivity|]. simpl.
  repeat split; vm_compute; reflexivity.
Qed.

(** ** Order of the amounts *)

Section FloatOrderFacts.
Import FloatOrder.

Lemma compare_rank (x y : spec_float) :
  PyFloat.is_nan x = false -> PyFloat.is_nan y = false ->
  SFcompare x y = Some (lex (rank x) (rank y)).
Proof.
  destruct x as [sx|sx| |sx mx ex], y as [sy|sy| |sy my ey];
    simpl; try discriminate; intros _ _;
    try (destruct sx); try (destruct sy); try reflexivity.
  unfold lex. rewrite Z.compare_refl, Z.compare_opp.
  rewrite (Z.compare_antisym ex ey).
  destruct (ex ?= ey); reflexivity.
Qed.

Lemma lex_lt (a b : Z * Z * Z) :
  lex a b = Lt <->
  let '(a1, a2, a3) := a in
  let '(b1, b2, b3) := b in
  a1 < b1 \/ (a1 = b1 /\ (a2 < b2 \/ (a2 = b2 /\ a3 < b3))).
Proof.
  destruct a as [[a1 a2] a3], b as [[b1 b2] b3]. unfold lex.
  destruct (Z.compare_spec a1 b1), (Z.compare_spec a2 b2), (Z.compare_spec a3 b3);
    split; intros Hlt; try discriminate; try reflexivity; try lia.
Qed.

Lemma ltb_rank (x y : spec_float) :
  PyFloat.is_nan x = false -> PyFloat.is_nan y = false ->
  PyFloat.ltb x y = true <-> lex (rank x) (rank y) = Lt.
Proof.
  intros Hx Hy. unfold PyFloat.ltb, SFltb. rewrite (compare_rank x y Hx Hy).
  destruct (lex (rank x) (rank y)); split; intros H; try discriminate; reflexivity.
Qed.

Lemma geb_trans (x y z : spec_float) :
  PyFloat.is_nan x = false -> PyFloat.is_nan y = false -> PyFloat.is_nan z = false ->
  geb x y = true -> geb y z = true -> geb x z = true.
Proof.
  intros Hx Hy Hz. unfold geb. rewrite !negb_true_iff, <- !not_true_iff_false.
  rewrite (ltb_rank x y Hx Hy), (ltb_rank y z Hy Hz), (ltb_rank x z Hx Hz), !lex_lt.
  destruct (rank x) as [[x1 x2] x3], (rank y) as [[y1 y2] y3], (rank z) as [[z1 z2] z3].
  lia.
Qed.

Lemma ltb_geb (x y : spec_float) : PyFloat.ltb x y = true -> geb y x = true.
Proof.
  destruct (PyFloat.is_nan x) eqn:Hx; [destruct x; discriminate|].
  destruct (PyFloat.is_nan y) eqn:Hy; [destruct x, y; discriminate|].
  unfold geb. rewrite negb_true_iff, <- not_true_iff_false.
  rewrite (ltb_rank x y Hx Hy), (ltb_rank y x Hy Hx), !lex_lt.
  destruct (rank x) as [[x1 x2] x3], (rank y) as [[y1 y2] y3]. lia.
Qed.

(** Two numbers tied with a third one are not one below the other. *)
Lemma tied_not_ltb (x y v : spec_float) :
  PyFloat.is_nan x = false -> PyFloat.is_nan y = false -> PyFloat.is_nan v = false ->
  tied x v = true -> tied y v = true -> PyFloat.ltb x y = false.
Proof.
  intros Hx Hy Hv. unfold tied, geb.
  rewrite !andb_true_iff, !negb_true_iff, <- !not_true_iff_false.
  rewrite (ltb_rank x v Hx Hv), (ltb_rank v x Hv Hx), (ltb_rank y v Hy Hv),
    (ltb_rank v y Hv Hy), (ltb_rank x y Hx Hy), !lex_lt.
  destruct (rank x) as [[x1 x2] x3], (rank y) as [[y1 y2] y3], (rank v) as [[v1 v2] v3].
  lia.
Qed.

End FloatOrderFacts.

(** ** Top expenses *)

Section TopExpenses.
Import FloatOrder.

Lemma insert_desc_perm (x : Expense) (l : list Expense) :
  insert_desc x l ≡ₚ x :: l.
Proof.
  induction l as [|y r IH]; simpl; [reflexivity|].
  destruct (PyFloat.ltb (amount x) (amount y)); [|reflexivity].
  rewrite IH. apply Permutation_swap.
Qed.

Lemma sorted_desc_perm (l : list Expense) : sorted_desc l ≡ₚ l.
Proof.
  induction l as [|x l IH]; simpl; [reflexivity|].
  rewrite insert_desc_perm, IH. reflexivity.
Qed.

Lemma sorted_desc_length (l : list Expense) : length (sorted_desc l) = length l.
Proof. apply Permutation_length, sorted_desc_perm. Qed.

Lemma no_nan_sorted (l : list Expense) : no_nan l -> no_nan (sorted_desc l).
Proof. unfold no_nan. intros H. rewrite sorted_desc_perm. exact H. Qed.

Lemma insert_desc_sorted (x : Expense) (l : list Expense) :
  no_nan (x :: l) ->
  StronglySorted not_below l -> StronglySorted not_below (insert_desc x l).
Proof.
  intros Hnan Hs. apply Forall_cons in Hnan as [Hx Hl].
  induction Hs as [|y r Hr IH Hall]; simpl.
  - constructor; constructor.
  - apply Forall_cons in Hl as [Hy Hnr].
    destruct (PyFloat.ltb (amount x) (amount y)) eqn:Hlt.
    + constructor; [apply IH; exact Hnr|].
      rewrite insert_desc_perm. constructor; [|exact Hall].
      apply ltb_geb. exact Hlt.
    + assert (Hxy : not_below x y) by (unfold not_below, geb; rewrite Hlt; reflexivity).
      constructor; [constructor; assumption|].
      constructor; [exact Hxy|].
      rewrite Forall_forall in Hall, Hnr |- *. intros z Hz.
      apply (geb_trans (amount x) (amount y) (amount z)); auto.
      apply Hall. exact Hz.
Qed.

Lemma sorted_desc_sorted (l : list Expense) :
  no_nan l -> StronglySorted not_below (sorted_desc l).
Proof.
  induction l as [|x l IH]; intros Hnan; simpl; [constructor|].
  pose proof Hnan as Hnan'. apply Forall_cons in Hnan' as [Hx Hl].
  apply insert_desc_sorted; [|apply IH; exact Hl].
  constructor; [exact Hx | apply no_nan_sorted; exact Hl].
Qed.

(** Stability: the expenses tied with a given amount come out in the
    order in which they went in. *)
Lemma insert_desc_stable (v : spec_float) (x : Expense) (l : list Expense) :
  PyFloat.is_nan v = false -> no_nan (x :: l) ->
  List.filter (fun e => tied (amount e) v) (insert_desc x l)
  = List.filter (fun e => tied (amount e) v) (x :: l).
Proof.
  intros Hv Hnan. apply Forall_cons in Hnan as [Hx Hl].
  induction l as [|y r IH]; [reflexivity|].
  apply Forall_cons in Hl as [Hy Hr].
  simpl insert_desc.
  destruct (PyFloat.ltb (amount x) (amount y)) eqn:Hlt; [|reflexivity].
  simpl List.filter. rewrite (IH Hr). simpl List.filter.
  destruct (tied (amount x) v) eqn:Tx, (tied (amount y) v) eqn:Ty; try reflexivity.
  rewrite (tied_not_ltb _ _ v Hx Hy Hv Tx Ty) in Hlt. discriminate.
Qed.

Lemma sorted_desc_stable (v : spec_float) (l : list Expense) :
  PyFloat.is_nan v = false -> no_nan l ->
  List.filter (fun e => tied (amount e) v) (sorted_desc l)
  = List.filter (fun e => tied (amount e) v) l.
Proof.
  intros Hv. induction l as [|x l IH]; intros Hnan; [reflexivity|].
  pose proof Hnan as Hnan'. apply Forall_cons in Hnan' as [Hx Hl].
  simpl sorted_desc. rewrite insert_desc_stable.
  - simpl. rewrite (IH Hl). reflexivity.
  - exact Hv.
  - constructor; [exact Hx | apply no_nan_sorted; exact Hl].
Qed.

End TopExpenses.

(** C3, as stated, fails for a negative [n]: the slice [[:n]] with [n = -1]
    drops the last expense of the sorted collection and keeps the rest. *)
Lemma C3_negative_n_not_empty :
  -1 <= 0
  /\ get_top_expenses two_expenses (-1)
     = [mkExpense (PyFloat.of_Z 500) "Other" "2024-01-02" "big"]
  /\ get_top_expenses two_expenses (-1) <> [].
Proof.
  split; [lia|].
  assert (H : get_top_expenses two_expenses (-1)
              = [mkExpense (PyFloat.of_Z 500) "Other" "2024-01-02" "big"])
    by (vm_compute; reflexivity).
  split; [exact H | rewrite H; discriminate].
Qed.

(** C3, amended: for a collection without NaN amounts, the result is a slice
    of the collection sorted by decreasing amount, a stable sort, so tied
    expenses keep their order. For [n >= 0] the slice is the first [n]
    expenses, all of them when [n] reaches the size and none when [n = 0];
    for [n < 0] it is the sorted collection without its last [-n] expenses. *)
Theorem C3_get_top_expenses (expenses : list Expense) (n : Z) :
  no_nan expenses ->
  sorted_desc expenses ≡ₚ expenses
  /\ StronglySorted not_below (sorted_desc expenses)
  /\ (forall v, PyFloat.is_nan v = false ->
        List.filter (fun e => FloatOrder.tied (amount e) v) (sorted_desc expenses)
        = List.filter (fun e => FloatOrder.tied (amount e) v) expenses)
  /\ (0 <= n ->
        get_top_expenses expenses n = take (Z.to_nat n) (sorted_desc expenses)
        /\ length (get_top_expenses expenses n) = Nat.min (Z.to_nat n) (length expenses))
  /\ (Z.of_nat (length expenses) <= n -> get_top_expenses expenses n = sorted_desc expenses)
  /\ (n = 0 -> get_top_expenses expenses n = [])
  /\ (n < 0 ->
        get_top_expenses expenses n
        = take (length expenses - Z.to_nat (- n)) (sorted_desc expenses)).
Proof.
  intros Hnan.
  split; [apply sorted_desc_perm|].
  split; [apply sorted_desc_sorted; exact Hnan|].
  split; [intros v Hv; apply sorted_desc_stable; assumption|].
  unfold get_top_expenses, slice_to.
  split; [|split; [|split]].
  - intros Hn. apply Z.leb_le in Hn. rewrite Hn. split; [reflexivity|].
    rewrite length_take, sorted_desc_length. reflexivity.
  - intros Hn. assert (H0 : (0 <=? n) = true) by (apply Z.leb_le; lia).
    rewrite H0. apply take_ge. rewrite sorted_desc_length. lia.
  - intros ->. reflexivity.
  - intros Hn. assert (H0 : (0 <=? n) = false) by (apply Z.leb_gt; lia).
    rewrite H0, sorted_desc_length. f_equal. lia.
Qed.

(** The theorem at the amounts 50, 500, 10, 500 and [n = 2]: the two
    expenses of 500, in their original order. *)
Lemma C3_get_top_expenses_witness :
  let E := [mkExpense (PyFloat.of_Z 50) "Food" "2024-01-01" "a";
            mkExpense (PyFloat.of_Z 500) "Food" "2024-01-02" "b";
            mkExpense (PyFloat.of_Z 10) "Food" "2024-01-03" "c";
            mkExpense (PyFloat.of_Z 500) "Food" "2024-01-04" "d"] in
  no_nan E
  /\ map description (get_top_expenses E 2) = ["b"; "d"]
  /\ StronglySorted not_below (sorted_desc E).
Proof.
  intros E.
  assert (Hnan : no_nan E) by (repeat constructor).
  split; [exact Hnan|].
  split; [vm_compute; reflexivity|].
  exact (proj1 (proj2 (C3_get_top_expenses E 2 Hnan))).
Defined.

(** ** Round trip of the store *)

Section StreamFacts.
Import Csv CsvStream.

Lemma feed_chars_app (rd : reader) (a b : list ascii) :
  feed_chars rd (a ++ b)%list = (let* rd' := feed_chars rd a in feed_chars rd' b).
Proof.
  revert rd. induction a as [|c a IH]; intros rd; simpl; [reflexivity|].
  destruct (parse_process_char rd (Some c)); simpl; [apply IH | reflexivity].
Qed.

Lemma feed_line_chars (rd : reader) (cs : list ascii) :
  feed_line rd (string_of_list_ascii cs)
  = (let* rd' := feed_chars rd cs in parse_process_char rd' None).
Proof.
  revert rd. induction cs as [|c cs IH]; intros rd; simpl.
  - destruct (parse_process_char rd None); reflexivity.
  - destruct (parse_process_char rd (Some c)); simpl; [apply IH | reflexivity].
Qed.

(** Feeding one complete line whose characters are [cs]. *)
Lemma records_from_line (rd : reader) (cs : list ascii) (rest : list string) :
  records_from rd (string_of_list_ascii cs :: rest) =
    match feed_chars rd cs with
    | Raise e => ([], Some e)
    | Ok rd1 =>
        match parse_process_char rd1 None with
        | Raise e => ([], Some e)
        | Ok rd2 =>
            if state_eqb (st rd2) START_RECORD then
              let '(rs, e) := records_from parse_reset rest in (fields rd2 :: rs, e)
            else records_from rd2 rest
        end
    end.
Proof.
  simpl records_from. rewrite feed_line_chars.
  destruct (feed_chars rd cs) as [rd1|e]; simpl; [|reflexivity].
  destruct (parse_process_char rd1 None); reflexivity.
Qed.

Lemma tokens_Mid_Fresh (c : ascii) (r : string) :
  tokens Mid (String c r) = tokens Fresh (String c r).
Proof. reflexivity. Qed.

Lemma tokens_AfterCR (c : ascii) (r : string) :
  Ascii.eqb c LF = false ->
  tokens AfterCR (String c r) = None :: tokens Fresh (String c r).
Proof. intros H. simpl. rewrite H. reflexivity. Qed.

(** Reading the lines of a text is running the reader over its tokens. *)
Lemma records_from_tokens (n : nat) :
  forall (s : string) (cur : list ascii) (rd : reader),
    (String.length s <= n)%nat ->
    records_from rd (lines_from cur s) =
      match feed_chars rd (rev cur) with
      | Ok rd' => run rd' (tokens (start_position cur) s)
      | Raise e => match cur with [] => run rd (tokens Fresh s) | _ => ([], Some e) end
      end.
Proof.
  induction n as [|n IH]; intros s cur rd Hlen.
  - destruct s; [|simpl in Hlen; lia].
    destruct cur as [|c cur]; [reflexivity|].
    cbn [lines_from]. rewrite records_from_line.
    destruct (feed_chars rd (rev (c :: cur))) as [rd1|e]; [|reflexivity].
    cbn [start_position tokens run]. 
    destruct (parse_process_char rd1 None) as [rd2|e]; [|reflexivity].
    cbn [records_from]. destruct (state_eqb (st rd2) START_RECORD); reflexivity.
  - destruct s as [|c r].
    { apply (IH EmptyString cur rd). simpl. lia. }
    simpl in Hlen. cbn [lines_from].
    destruct (Ascii.eqb c LF) eqn:Hlf.
    + (* the line ends with this LF *)
      rewrite records_from_line. cbn [rev]. rewrite feed_chars_app.
      assert (Htok : tokens (start_position cur) (String c r)
                     = Some c :: None :: tokens Fresh r).
      { destruct cur; simpl; rewrite Hlf; reflexivity. }
      rewrite Htok.
      destruct (feed_chars rd (rev cur)) as [rd1|e] eqn:Hfeed; cbn [bind feed_chars].
      * cbn [run]. destruct (parse_process_char rd1 (Some c)) as [rd2|e]; cbn [bind]; [|reflexivity].
        destruct (parse_process_char rd2 None) as [rd3|e]; [|reflexivity].
        rewrite !(IH r [] _) by lia. cbn [rev feed_chars start_position].
        reflexivity.
      * destruct cur as [|c0 cur0]; [simpl in Hfeed; discriminate|]. reflexivity.
    + destruct (Ascii.eqb c CR) eqn:Hcr.
      * (* CR: alone, or with the LF behind it *)
        assert (Htok : tokens (start_position cur) (String c r)
                       = Some c :: tokens AfterCR r).
        { unfold after_char. destruct cur; simpl; rewrite Hlf; unfold after_char;
            rewrite Hlf, Hcr; reflexivity. }
        rewrite Htok.
        destruct r as [|c' r'].
        -- rewrite records_from_line. cbn [rev]. rewrite feed_chars_app.
           destruct (feed_chars rd (rev cur)) as [rd1|e] eqn:Hfeed; cbn [bind feed_chars].
           ++ cbn [run tokens]. destruct (parse_process_char rd1 (Some c)) as [rd2|e]; cbn [bind]; [|reflexivity].
              destruct (parse_process_char rd2 None) as [rd3|e]; [|reflexivity].
              cbn [lines_from records_from run]. 
              destruct (state_eqb (st rd3) START_RECORD); reflexivity.
           ++ destruct cur as [|c0 cur0]; [simpl in Hfeed; discriminate|]. reflexivity.
        -- destruct (Ascii.eqb c' LF) eqn:Hlf'.
           ++ rewrite records_from_line. cbn [rev]. rewrite <- !app_assoc, feed_chars_app.
              cbn [tokens]. rewrite Hlf'.
              destruct (feed_chars rd (rev cur)) as [rd1|e] eqn:Hfeed; cbn [bind feed_chars app].
              ** cbn [run]. destruct (parse_process_char rd1 (Some c)) as [rd2|e]; cbn [bind]; [|reflexivity].
                 destruct (parse_process_char rd2 (Some c')) as [rd3|e]; cbn [bind]; [|reflexivity].
                 destruct (parse_process_char rd3 None) as [rd4|e]; [|reflexivity].
                 simpl in Hlen.
                 rewrite !(IH r' [] _) by lia. cbn [rev feed_chars start_position].
                 reflexivity.
              ** destruct cur as [|c0 cur0]; [simpl in Hfeed; discriminate|]. reflexivity.
           ++ rewrite records_from_line. cbn [rev]. rewrite feed_chars_app.
              rewrite (tokens_AfterCR c' r' Hlf').
              destruct (feed_chars rd (rev cur)) as [rd1|e] eqn:Hfeed; cbn [bind feed_chars].
              ** cbn [run]. destruct (parse_process_char rd1 (Some c)) as [rd2|e]; cbn [bind]; [|reflexivity].
                 destruct (parse_process_char rd2 None) as [rd3|e]; [|reflexivity].
                 rewrite !(IH (String c' r') [] _) by (simpl in *; lia).
                 cbn [rev feed_chars start_position]. reflexivity.
              ** destruct cur as [|c0 cur0]; [simpl in Hfeed; discriminate|]. reflexivity.
      * (* an ordinary character *)
        rewrite (IH r (c :: cur) rd) by lia.
        cbn [rev start_position]. rewrite feed_chars_app.
        assert (Htok : tokens (start_position cur) (String c r)
                       = Some c :: tokens Mid r).
        { destruct cur; simpl; rewrite Hlf; unfold after_char; rewrite Hlf, Hcr; reflexivity. }
        rewrite Htok.
        destruct (feed_chars rd (rev cur)) as [rd1|e] eqn:Hfeed; cbn [bind feed_chars].
        -- cbn [run]. destruct (parse_process_char rd1 (Some c)) as [rd2|e]; cbn [bind]; reflexivity.
        -- destruct cur as [|c0 cur0]; [simpl in Hfeed; discriminate|]. reflexivity.
Qed.

Lemma reader_records_tokens (text : string) :
  reader_records text = run parse_reset (tokens Fresh text).
Proof.
  unfold reader_records, splitlines.
  rewrite (records_from_tokens (String.length text) text [] parse_reset) by lia.
  reflexivity.
Qed.

(** *** One character at a time *)

Lemma special_false (c : ascii) :
  special c = false ->
  Ascii.eqb c COMMA = false /\ Ascii.eqb c QUOTE = false
  /\ Ascii.eqb c CR = false /\ Ascii.eqb c LF = false.
Proof.
  unfold special, is_newline. rewrite !orb_false_iff. tauto.
Qed.

Lemma eqb_sym_false (a b : ascii) : Ascii.eqb a b = false -> Ascii.eqb b a = false.
Proof. rewrite Ascii.eqb_sym. auto. Qed.

Lemma add_ok (s0 : state) (fr : list ascii) (fl : Z) (fs : list string) (c : ascii) :
  fl < field_limit ->
  parse_add_char (mkReader s0 fr fl fs) c = Ok (mkReader s0 (c :: fr) (fl + 1) fs).
Proof.
  intros H. unfold parse_add_char. cbn [field_len].
  destruct (Z.leb_spec field_limit fl); [lia | reflexivity].
Qed.

Lemma run_some (rd rd' : reader) (c : ascii) (ts : list (option ascii)) :
  parse_process_char rd (Some c) = Ok rd' ->
  run rd (Some c :: ts) = run rd' ts.
Proof. intros H. cbn [run]. rewrite H. reflexivity. Qed.

Lemma run_none_continue (rd rd' : reader) (ts : list (option ascii)) :
  parse_process_char rd None = Ok rd' ->
  state_eqb (st rd') START_RECORD = false ->
  run rd (None :: ts) = run rd' ts.
Proof. intros H Hs. cbn [run]. rewrite H, Hs. reflexivity. Qed.

Lemma run_none_emit (rd rd' : reader) (ts : list (option ascii)) :
  parse_process_char rd None = Ok rd' ->
  state_eqb (st rd') START_RECORD = true ->
  run rd (None :: ts) = (let '(rs, e) := run parse_reset ts in (fields rd' :: rs, e)).
Proof. intros H Hs. cbn [run]. rewrite H, Hs. reflexivity. Qed.

Lemma tokens_cons (p : position) (c : ascii) (r : string) :
  tokens p (String c r)
  = (marks_before p c ++ Some c :: marks_after c ++ tokens (after_char c) r)%list.
Proof.
  unfold marks_before, marks_after, after_char.
  destruct p; cbn [tokens]; destruct (Ascii.eqb c LF) eqn:Hlf; unfold after_char;
    rewrite ?Hlf; reflexivity.
Qed.

(** A character that is not a line end, not behind a CR. *)
Lemma tokens_plain (p : position) (c : ascii) (r : string) :
  p <> AfterCR -> Ascii.eqb c LF = false -> Ascii.eqb c CR = false ->
  tokens p (String c r) = Some c :: tokens Mid r.
Proof.
  intros Hp Hlf Hcr. rewrite tokens_cons. unfold marks_before, marks_after, after_char.
  rewrite Hlf, Hcr. destruct p; try reflexivity. contradiction.
Qed.

(** Inside quotes the end-of-line mark changes nothing. *)
Lemma quoted_none (fr : list ascii) (fl : Z) (fs : list string) (ts : list (option ascii)) :
  run (mkReader IN_QUOTED_FIELD fr fl fs) (None :: ts)
  = run (mkReader IN_QUOTED_FIELD fr fl fs) ts.
Proof. apply run_none_continue; reflexivity. Qed.

Lemma quoted_marks (fr : list ascii) (fl : Z) (fs : list string)
      (ms ts : list (option ascii)) :
  ms = [] \/ ms = [None] ->
  run (mkReader IN_QUOTED_FIELD fr fl fs) (ms ++ ts)%list
  = run (mkReader IN_QUOTED_FIELD fr fl fs) ts.
Proof. intros [-> | ->]; [reflexivity | apply quoted_none]. Qed.

Lemma marks_before_cases (p : position) (c : ascii) :
  marks_before p c = [] \/ marks_before p c = [None].
Proof. unfold marks_before. destruct p, (Ascii.eqb c LF); auto. Qed.

Lemma marks_after_cases (c : ascii) : marks_after c = [] \/ marks_after c = [None].
Proof. unfold marks_after. destruct (Ascii.eqb c LF); auto. Qed.

(** Inside quotes every character but the quote is kept, line ends
    included. *)
Lemma go_quoted_char (fr : list ascii) (fl : Z) (fs : list string)
      (p : position) (c : ascii) (r : string) :
  Ascii.eqb c QUOTE = false -> fl < field_limit ->
  go (mkReader IN_QUOTED_FIELD fr fl fs) p (String c r)
  = go (mkReader IN_QUOTED_FIELD (c :: fr) (fl + 1) fs) (after_char c) r.
Proof.
  intros Hq Hl. unfold go. rewrite tokens_cons.
  rewrite (quoted_marks _ _ _ _ _ (marks_before_cases p c)).
  rewrite (run_some _ (mkReader IN_QUOTED_FIELD (c :: fr) (fl + 1) fs)).
  - apply quoted_marks, marks_after_cases.
  - unfold parse_process_char. cbn [st]. rewrite Hq. apply add_ok. exact Hl.
Qed.

(** A doubled quote inside quotes is one quote of the field. *)
Lemma go_quoted_quote (fr : list ascii) (fl : Z) (fs : list string)
      (p : position) (r : string) :
  fl < field_limit ->
  go (mkReader IN_QUOTED_FIELD fr fl fs) p (String QUOTE (String QUOTE r))
  = go (mkReader IN_QUOTED_FIELD (QUOTE :: fr) (fl + 1) fs) Mid r.
Proof.
  intros Hl. unfold go. rewrite tokens_cons.
  rewrite (quoted_marks _ _ _ _ _ (marks_before_cases p QUOTE)).
  rewrite (run_some _ (mkReader QUOTE_IN_QUOTED_FIELD fr fl fs)) by reflexivity.
  change (marks_after QUOTE) with (@nil (option ascii)). cbn [app].
  change (after_char QUOTE) with Mid.
  rewrite (tokens_plain Mid QUOTE r) by (discriminate || reflexivity).
  apply run_some. unfold parse_process_char. cbn [st is_char].
  rewrite Ascii.eqb_refl. rewrite (add_ok _ _ _ _ _ Hl). reflexivity.
Qed.

Lemma append_cons (c : ascii) (a b : string) :
  (String c a ++ b)%string = String c (a ++ b).
Proof. reflexivity. Qed.

Lemma double_quotes_cons (c : ascii) (f : string) :
  double_quotes (String c f)
  = if Ascii.eqb c QUOTE then String QUOTE (String QUOTE (double_quotes f))
    else String c (double_quotes f).
Proof. reflexivity. Qed.

(** The content of a quoted field, as written, is read back as it was. *)
Lemma go_quoted_content (f : string) :
  forall (fr : list ascii) (fl : Z) (fs : list string) (p : position) (rest : string),
    fl + len f <= field_limit ->
    go (mkReader IN_QUOTED_FIELD fr fl fs) p (double_quotes f ++ rest)
    = go (mkReader IN_QUOTED_FIELD (chars_rev f fr) (fl + len f) fs)
         (position_after p f) rest.
Proof.
  unfold len, chars_rev.
  induction f as [|c f IH]; intros fr fl fs p rest Hl.
  - cbn. rewrite Z.add_0_r. reflexivity.
  - cbn [String.length] in Hl. rewrite double_quotes_cons.
    cbn [list_ascii_of_string rev position_after String.length].
    rewrite <- app_assoc. cbn [app].
    replace (fl + Z.of_nat (S (String.length f)))
      with ((fl + 1) + Z.of_nat (String.length f)) by lia.
    destruct (Ascii.eqb c QUOTE) eqn:Hq.
    + apply Ascii.eqb_eq in Hq. subst c. rewrite !append_cons.
      rewrite go_quoted_quote by lia.
      rewrite IH by lia. reflexivity.
    + rewrite !append_cons. rewrite go_quoted_char by (assumption || lia).
      rewrite IH by lia. reflexivity.
Qed.

Lemma string_of_app (a b : list ascii) :
  string_of_list_ascii (a ++ b) = (string_of_list_ascii a ++ string_of_list_ascii b)%string.
Proof. induction a as [|x a IH]; [reflexivity|]. cbn. rewrite IH. reflexivity. Qed.

Lemma saved_chars_rev_acc (f : string) (acc : list ascii) :
  saved (chars_rev f acc) = (saved acc ++ f)%string.
Proof.
  unfold saved, chars_rev.
  rewrite rev_app_distr, rev_involutive, string_of_app, string_of_list_ascii_of_string.
  reflexivity.
Qed.

Lemma saved_chars_rev (f : string) : saved (chars_rev f []) = f.
Proof. rewrite saved_chars_rev_acc. reflexivity. Qed.

(** The closing quote, then the delimiter: the field is complete. *)
Lemma go_close_comma (fr : list ascii) (fl : Z) (fs : list string)
      (p : position) (rest : string) :
  go (mkReader IN_QUOTED_FIELD fr fl fs) p (String QUOTE (String COMMA rest))
  = go (mkReader START_FIELD [] 0 (fs ++ [saved fr])) Mid rest.
Proof.
  unfold go. rewrite tokens_cons.
  rewrite (quoted_marks _ _ _ _ _ (marks_before_cases p QUOTE)).
  rewrite (run_some _ (mkReader QUOTE_IN_QUOTED_FIELD fr fl fs)) by reflexivity.
  change (marks_after QUOTE) with (@nil (option ascii)). cbn [app].
  change (after_char QUOTE) with Mid.
  rewrite (tokens_plain Mid COMMA rest) by (discriminate || reflexivity).
  apply run_some. reflexivity.
Qed.

(** The closing quote, then CR LF: the record is complete. *)
Lemma go_close_crlf (fr : list ascii) (fl : Z) (fs : list string)
      (p : position) (rest : string) :
  go (mkReader IN_QUOTED_FIELD fr fl fs) p (String QUOTE (String CR (String LF rest)))
  = emit (fs ++ [saved fr]) rest.
Proof.
  unfold go, emit. rewrite tokens_cons.
  rewrite (quoted_marks _ _ _ _ _ (marks_before_cases p QUOTE)).
  rewrite (run_some _ (mkReader QUOTE_IN_QUOTED_FIELD fr fl fs)) by reflexivity.
  change (marks_after QUOTE) with (@nil (option ascii)). cbn [app].
  change (after_char QUOTE) with Mid.
  rewrite (tokens_cons Mid CR).
  change (marks_before Mid CR) with (@nil (option ascii)).
  change (marks_after CR) with (@nil (option ascii)). cbn [app].
  rewrite (run_some _ (mkReader EAT_CRNL [] 0 (fs ++ [saved fr]))) by reflexivity.
  change (after_char CR) with AfterCR.
  rewrite (tokens_cons AfterCR LF).
  change (marks_before AfterCR LF) with (@nil (option ascii)).
  change (marks_after LF) with [@None ascii]. cbn [app].
  rewrite (run_some _ (mkReader EAT_CRNL [] 0 (fs ++ [saved fr]))) by reflexivity.
  change (after_char LF) with Fresh.
  rewrite (run_none_emit _ (mkReader START_RECORD [] 0 (fs ++ [saved fr]))) by reflexivity.
  reflexivity.
Qed.

(** An unquoted field ends at CR LF: the record is complete. *)
Lemma go_crlf (s0 : state) (fr : list ascii) (fl : Z) (fs : list string) (rest : string) :
  s0 = START_FIELD \/ s0 = IN_FIELD ->
  go (mkReader s0 fr fl fs) Mid (String CR (String LF rest))
  = emit (fs ++ [saved fr]) rest.
Proof.
  intros Hs. unfold go, emit.
  rewrite (tokens_cons Mid CR).
  change (marks_before Mid CR) with (@nil (option ascii)).
  change (marks_after CR) with (@nil (option ascii)). cbn [app].
  rewrite (run_some _ (mkReader EAT_CRNL [] 0 (fs ++ [saved fr])))
    by (destruct Hs as [-> | ->]; reflexivity).
  change (after_char CR) with AfterCR.
  rewrite (tokens_cons AfterCR LF).
  change (marks_before AfterCR LF) with (@nil (option ascii)).
  change (marks_after LF) with [@None ascii]. cbn [app].
  rewrite (run_some _ (mkReader EAT_CRNL [] 0 (fs ++ [saved fr]))) by reflexivity.
  change (after_char LF) with Fresh.
  rewrite (run_none_emit _ (mkReader START_RECORD [] 0 (fs ++ [saved fr]))) by reflexivity.
  reflexivity.
Qed.

(** An unquoted field ends at the delimiter. *)
Lemma go_comma (s0 : state) (fr : list ascii) (fl : Z) (fs : list string)
      (p : position) (rest : string) :
  s0 = START_RECORD \/ s0 = START_FIELD \/ s0 = IN_FIELD -> p <> AfterCR ->
  go (mkReader s0 fr fl fs) p (String COMMA rest)
  = go (mkReader START_FIELD [] 0 (fs ++ [saved fr])) Mid rest.
Proof.
  intros Hs Hp. unfold go.
  rewrite (tokens_plain p COMMA rest) by (assumption || reflexivity).
  apply run_some. destruct Hs as [-> | [-> | ->]]; reflexivity.
Qed.

(** The opening quote of a field. *)
Lemma go_open_quote (s0 : state) (fs : list string) (p : position) (rest : string) :
  s0 = START_RECORD \/ s0 = START_FIELD -> p <> AfterCR ->
  go (mkReader s0 [] 0 fs) p (String QUOTE rest)
  = go (mkReader IN_QUOTED_FIELD [] 0 fs) Mid rest.
Proof.
  intros Hs Hp. unfold go.
  rewrite (tokens_plain p QUOTE rest) by (assumption || reflexivity).
  apply run_some. destruct Hs as [-> | ->]; reflexivity.
Qed.

(** A character of an unquoted field. *)
Lemma go_plain_char (s0 : state) (fr : list ascii) (fl : Z) (fs : list string)
      (p : position) (c : ascii) (rest : string) :
  s0 = START_RECORD \/ s0 = START_FIELD \/ s0 = IN_FIELD -> p <> AfterCR ->
  special c = false -> fl < field_limit ->
  go (mkReader s0 fr fl fs) p (String c rest)
  = go (mkReader IN_FIELD (c :: fr) (fl + 1) fs) Mid rest.
Proof.
  intros Hs Hp Hc Hl. apply special_false in Hc as (Hcomma & Hquote & Hcr & Hlf).
  unfold go. rewrite (tokens_plain p c rest) by assumption.
  apply run_some.
  assert (Hnl : is_newline c = false) by (unfold is_newline; rewrite Hcr, Hlf; reflexivity).
  apply eqb_sym_false in Hcomma, Hquote.
  destruct Hs as [-> | [-> | ->]];
    unfold parse_process_char, start_field; cbn [st set_state ends_line is_char];
    rewrite ?Hnl, ?Hquote, ?Hcomma; unfold set_state;
    cbn [st field_rev field_len fields];
    rewrite (add_ok _ _ _ _ _ Hl); reflexivity.
Qed.

Lemma needs_quotes_cons (c : ascii) (f : string) :
  needs_quotes (String c f) = false -> special c = false /\ needs_quotes f = false.
Proof. cbn [needs_quotes]. apply orb_false_iff. Qed.

(** The content of an unquoted field. *)
Lemma go_plain_content (f : string) :
  forall (fr : list ascii) (fl : Z) (fs : list string) (rest : string),
    needs_quotes f = false -> fl + len f <= field_limit ->
    go (mkReader IN_FIELD fr fl fs) Mid (f ++ rest)
    = go (mkReader IN_FIELD (chars_rev f fr) (fl + len f) fs) Mid rest.
Proof.
  unfold len, chars_rev.
  induction f as [|c f IH]; intros fr fl fs rest Hq Hl.
  - cbn. rewrite Z.add_0_r. reflexivity.
  - apply needs_quotes_cons in Hq as [Hc Hq]. cbn [String.length] in Hl.
    rewrite append_cons.
    rewrite (go_plain_char IN_FIELD) by (auto || discriminate || lia).
    rewrite IH by (assumption || lia).
    cbn [list_ascii_of_string rev String.length]. rewrite <- app_assoc. cbn [app].
    replace (fl + Z.of_nat (S (String.length f)))
      with ((fl + 1) + Z.of_nat (String.length f)) by lia.
    reflexivity.
Qed.

Lemma append_assoc (a b c : string) : ((a ++ b) ++ c)%string = (a ++ (b ++ c))%string.
Proof. induction a as [|x a IH]; [reflexivity|]. rewrite !append_cons, IH. reflexivity. Qed.

Lemma field_limit_pos : 0 < field_limit.
Proof. reflexivity. Qed.

(** A written field and the delimiter behind it are read back as the
    field. *)
Lemma go_field_comma (f : string) (s0 : state) (fs : list string)
      (p : position) (rest : string) :
  s0 = START_RECORD \/ s0 = START_FIELD -> p <> AfterCR -> len f <= field_limit ->
  go (mkReader s0 [] 0 fs) p (write_field f ++ String COMMA rest)
  = go (mkReader START_FIELD [] 0 (fs ++ [f])) Mid rest.
Proof.
  intros Hs Hp Hl. unfold write_field.
  destruct (needs_quotes f) eqn:Hq.
  - rewrite append_cons, append_assoc, append_cons.
    rewrite (go_open_quote s0) by assumption.
    rewrite go_quoted_content by lia.
    change (String QUOTE ("" ++ String COMMA rest)) with (String QUOTE (String COMMA rest)).
    rewrite go_close_comma, saved_chars_rev. reflexivity.
  - destruct f as [|c f].
    + change ("" ++ String COMMA rest)%string with (String COMMA rest).
      rewrite (go_comma s0) by tauto. reflexivity.
    + apply needs_quotes_cons in Hq as [Hc Hq]. unfold len in Hl. cbn [String.length] in Hl.
      rewrite append_cons.
      rewrite (go_plain_char s0) by (tauto || assumption || apply field_limit_pos).
      rewrite go_plain_content by (assumption || unfold len; lia).
      rewrite (go_comma IN_FIELD) by (tauto || discriminate).
      rewrite saved_chars_rev_acc. reflexivity.
Qed.

(** A written field and the line terminator behind it complete the
    record. *)
Lemma go_field_crlf (f : string) (fs : list string) (rest : string) :
  len f <= field_limit ->
  go (mkReader START_FIELD [] 0 fs) Mid (write_field f ++ line_terminator ++ rest)
  = emit (fs ++ [f]) rest.
Proof.
  intros Hl. unfold write_field, line_terminator. rewrite !append_cons.
  change ("" ++ rest)%string with rest.
  destruct (needs_quotes f) eqn:Hq.
  - rewrite append_cons, append_assoc, append_cons.
    rewrite (go_open_quote START_FIELD) by (tauto || discriminate).
    rewrite go_quoted_content by lia.
    change (String QUOTE ("" ++ String CR (String LF rest)))
      with (String QUOTE (String CR (String LF rest))).
    rewrite go_close_crlf, saved_chars_rev. reflexivity.
  - destruct f as [|c f].
    + change ("" ++ String CR (String LF rest))%string with (String CR (String LF rest)).
      rewrite (go_crlf START_FIELD) by tauto. reflexivity.
    + apply needs_quotes_cons in Hq as [Hc Hq]. unfold len in Hl. cbn [String.length] in Hl.
      rewrite append_cons.
      rewrite (go_plain_char START_FIELD)
        by (tauto || discriminate || assumption || apply field_limit_pos).
      rewrite go_plain_content by (assumption || unfold len; lia).
      rewrite (go_crlf IN_FIELD) by tauto.
      rewrite saved_chars_rev_acc. reflexivity.
Qed.

Lemma row_text_eq (a b c d : string) :
  row_text a b c d
  = (write_field a ++ String COMMA (write_field b ++ String COMMA
       (write_field c ++ String COMMA (write_field d ++ line_terminator))))%string.
Proof.
  unfold row_text, writerow. cbn [map field_text PyStr.join].
  destruct a; rewrite !append_assoc; reflexivity.
Qed.

(** A written row of four fields is read back as these four fields. *)
Lemma go_row (a b c d rest : string) :
  fits a -> fits b -> fits c -> fits d ->
  go parse_reset Fresh (row_text a b c d ++ rest) = emit [a; b; c; d] rest.
Proof.
  unfold fits. intros Ha Hb Hc Hd. rewrite row_text_eq.
  repeat (rewrite append_assoc || rewrite append_cons).
  unfold parse_reset at 1.
  rewrite (go_field_comma a START_RECORD) by (tauto || discriminate || assumption).
  rewrite (go_field_comma b START_FIELD) by (tauto || discriminate || assumption).
  rewrite (go_field_comma c START_FIELD) by (tauto || discriminate || assumption).
  rewrite (go_field_crlf d) by assumption.
  reflexivity.
Qed.

Lemma concat_cons (x : string) (l : list string) :
  String.concat "" (x :: l) = (x ++ String.concat "" l)%string.
Proof.
  destruct l as [|y l]; cbn [String.concat].
  - induction x as [|c x IH]; [reflexivity|]. rewrite append_cons, <- IH. reflexivity.
  - reflexivity.
Qed.

(** The reader gives back the rows that the writer wrote. *)
Lemma reader_writer_roundtrip (rows : list (string * string * string * string)) :
  Forall row_fits rows ->
  reader_records (rows_text rows) = (map row_fields rows, None).
Proof.
  rewrite reader_records_tokens. fold (go parse_reset Fresh (rows_text rows)).
  induction 1 as [|[[[a b] c] d] rows (Ha & Hb & Hc & Hd) _ IH].
  - reflexivity.
  - unfold rows_text. cbn [map]. rewrite concat_cons.
    rewrite go_row by assumption. unfold emit.
    fold (rows_text rows). rewrite IH. reflexivity.
Qed.

End StreamFacts.

(** *** From the reader to the loaded collection *)

Section LoadFacts.
Import Csv CsvStream.

Lemma csv_text_rows (expenses : list Expense) :
  csv_text expenses = rows_text (header_fields :: map expense_fields expenses).
Proof.
  unfold csv_text, rows_text. cbn [map]. rewrite concat_cons, map_map.
  reflexivity.
Qed.

Lemma filter_nonempty_rows (rows : list (string * string * string * string)) :
  filter (fun r : list string => r <> []) (map row_fields rows) = map row_fields rows.
Proof.
  induction rows as [|[[[a b] c] d] rows IH]; [reflexivity|].
  cbn [map row_fields]. rewrite filter_cons_True by discriminate.
  rewrite IH. reflexivity.
Qed.

Lemma expense_of_written_row (a b c d : string) :
  expense_of_row (make_row (row_fields header_fields) [a; b; c; d] ∅)
  = Expense_init (VStr c) (VStr b) (VStr a) (VStr d).
Proof.
  unfold expense_of_row, getitem. cbn [row_fields header_fields make_row].
  rewrite (lookup_insert_ne _ "Description" "Amount") by discriminate.
  rewrite (lookup_insert_eq _ "Amount"). cbn [bind].
  rewrite (lookup_insert_ne _ "Description" "Category") by discriminate.
  rewrite (lookup_insert_ne _ "Amount" "Category") by discriminate.
  rewrite (lookup_insert_eq _ "Category"). cbn [bind].
  rewrite (lookup_insert_ne _ "Description" "Date") by discriminate.
  rewrite (lookup_insert_ne _ "Amount" "Date") by discriminate.
  rewrite (lookup_insert_ne _ "Category" "Date") by discriminate.
  rewrite (lookup_insert_eq _ "Date"). cbn [bind].
  rewrite (lookup_insert_eq _ "Description"). cbn [bind].
  reflexivity.
Qed.

Lemma load_rows_rereads (expenses acc : list Expense) :
  Forall rereads expenses ->
  load_rows (map (fun r => make_row (row_fields header_fields) r ∅)
                 (map row_fields (map expense_fields expenses))) acc
  = ((acc ++ expenses)%list, [], None).
Proof.
  intros H. revert acc. induction H as [|e l He _ IH]; intros acc.
  - cbn. rewrite app_nil_r. reflexivity.
  - cbn [map expense_fields row_fields load_rows].
    rewrite expense_of_written_row. unfold rereads in He. rewrite He.
    rewrite IH, <- app_assoc. reflexivity.
Qed.

(** Loading the text that saving writes gives the collection back, without
    a warning, when every expense is constructed again from its own fields
    and every field is within the field limit of the reader. *)
Theorem load_saved_text (expenses : list Expense) :
  Forall storable expenses -> load_text (csv_text expenses) = (expenses, []).
Proof.
  intros H. unfold load_text, dict_rows.
  rewrite csv_text_rows, reader_writer_roundtrip.
  - cbn [map]. rewrite filter_nonempty_rows.
    rewrite (load_rows_rereads expenses []).
    + reflexivity.
    + eapply Forall_impl; [exact H | intros e [He _]; exact He].
  - constructor.
    + unfold header_fields, row_fits, fits, len. cbn. unfold field_limit. lia.
    + apply Forall_map. eapply Forall_impl; [exact H | intros e [_ He]; exact He].
Qed.

Theorem save_then_load (fm : FileManager) (fs : filesystem) (expenses : list Expense) :
  fs !! filename fm <> Some Dir ->
  Forall storable expenses ->
  exists fs',
    save_expenses fm fs expenses = (true, fs', [])
    /\ load_expenses fm fs' = (expenses, []).
Proof.
  intros Hdir H. exists (<[filename fm := File (csv_text expenses)]> fs). split.
  - unfold save_expenses. destruct (fs !! filename fm) as [[|]|]; try reflexivity.
    contradiction.
  - unfold load_expenses. rewrite lookup_insert_eq. apply load_saved_text. exact H.
Qed.

End LoadFacts.

(** *** Validly constructed expenses *)

Section Constructed.
Import Csv CsvStream.

Lemma rstrip_idempotent (p : ascii -> bool) (s : string) :
  PyStr.rstrip_by p (PyStr.rstrip_by p s) = PyStr.rstrip_by p s.
Proof.
  induction s as [|c r IH]; [reflexivity|].
  cbn [PyStr.rstrip_by].
  destruct (PyStr.rstrip_by p r) as [|c' r'] eqn:Hr.
  - destruct (p c) eqn:Hc; [reflexivity|]. cbn [PyStr.rstrip_by]. rewrite Hc. reflexivity.
  - cbn [PyStr.rstrip_by] in IH |- *. 
    destruct (PyStr.rstrip_by p r') as [|c'' r''] eqn:Hr'.
    + destruct (p c') eqn:Hc'; [discriminate|]. rewrite IH. reflexivity.
    + rewrite IH. reflexivity.
Qed.

Lemma lstrip_head (p : ascii -> bool) (s : string) :
  match PyStr.lstrip_by p s with
  | EmptyString => True
  | String c _ => p c = false
  end.
Proof.
  induction s as [|c r IH]; [exact I|].
  cbn [PyStr.lstrip_by]. destruct (p c) eqn:Hc; [exact IH | exact Hc].
Qed.

Lemma lstrip_rstrip (p : ascii -> bool) (s : string) :
  match s with EmptyString => True | String c _ => p c = false end ->
  PyStr.lstrip_by p (PyStr.rstrip_by p s) = PyStr.rstrip_by p s.
Proof.
  destruct s as [|c r]; [reflexivity|]. intros Hc.
  cbn [PyStr.rstrip_by].
  destruct (PyStr.rstrip_by p r); rewrite ?Hc; cbn [PyStr.lstrip_by]; rewrite Hc; reflexivity.
Qed.

Lemma strip_idempotent (s : string) : PyStr.strip (PyStr.strip s) = PyStr.strip s.
Proof.
  unfold PyStr.strip.
  rewrite (lstrip_rstrip PyStr.is_space (PyStr.lstrip_by PyStr.is_space s))
    by apply lstrip_head.
  apply rstrip_idempotent.
Qed.

Lemma constructed_fields (e : Expense) :
  constructed e ->
  In (category e) CATEGORIES
  /\ _validate_date (VStr (date e)) = Ok (date e)
  /\ PyStr.strip (description e) = description e.
Proof.
  intros (a & c & d & s & H). unfold Expense_init in H.
  destruct (_validate_amount a) as [a'|]; [|discriminate]. cbn [bind] in H.
  destruct (_validate_category c) as [c'|] eqn:Hc; [|discriminate]. cbn [bind] in H.
  destruct (_validate_date d) as [d'|] eqn:Hd; [|discriminate]. cbn [bind] in H.
  destruct (py_strip s) as [s'|] eqn:Hs; [|discriminate]. cbn [bind] in H.
  inversion H; subst e; clear H. cbn [category date description].
  split; [|split].
  - unfold _validate_category in Hc. destruct (py_strip c) as [t|]; [|discriminate].
    cbn [bind] in Hc. destruct (in_categories (PyStr.title t)) eqn:Hin; [|discriminate].
    inversion Hc; subst c'. apply in_categories_In. exact Hin.
  - rewrite (validate_date_unchanged d d' Hd) in Hd. exact Hd.
  - destruct s as [|t|x]; try discriminate. cbn in Hs. inversion Hs.
    apply strip_idempotent.
Qed.

Lemma constructed_rereads (e : Expense) :
  constructed e -> amount_rereads e -> rereads e.
Proof.
  intros Hc Ha. destruct (constructed_fields e Hc) as (Hcat & Hdate & Hdesc).
  unfold rereads, Expense_init. unfold amount_rereads in Ha. rewrite Ha. cbn [bind].
  unfold _validate_category. cbn [py_strip bind].
  rewrite (categories_normal _ Hcat).
  apply in_categories_In in Hcat. rewrite Hcat. cbn [bind].
  rewrite Hdate. cbn [bind py_strip]. rewrite Hdesc.
  destruct e; reflexivity.
Qed.

End Constructed.

(** *** The date and the category are short *)

Section ShortFields.
Import Csv CsvStream Strptime.

Lemma match_classes_length (cs : list (ascii -> bool)) :
  forall (s m rest : string),
    match_classes cs s = Some (m, rest) ->
    String.length s = (length cs + String.length rest)%nat.
Proof.
  induction cs as [|p cs IH]; intros s m rest H.
  - cbn in H. inversion H. reflexivity.
  - destruct s as [|c r]; [discriminate|]. cbn [match_classes] in H.
    destruct (p c); [|discriminate].
    destruct (match_classes cs r) as [[m' rest']|] eqn:Hm; [|discriminate].
    inversion H; subst. cbn [String.length length]. rewrite (IH r m' rest Hm). lia.
Qed.

Lemma first_alt_inv {A : Type} (alts : list (list (ascii -> bool))) (s : string)
      (k : string -> string -> option A) (x : A) :
  first_alt alts s k = Some x ->
  exists a m rest, In a alts /\ match_classes a s = Some (m, rest) /\ k m rest = Some x.
Proof.
  induction alts as [|a alts IH]; [discriminate|]. cbn [first_alt].
  destruct (match_classes a s) as [[m rest]|] eqn:Hm.
  - destruct (k m rest) as [y|] eqn:Hk.
    + intros H. inversion H; subst y. exists a, m, rest. cbn. auto.
    + intros H. destruct (IH H) as (a' & m' & rest' & Hin & Hm' & Hk').
      exists a', m', rest'. cbn. auto.
  - intros H. destruct (IH H) as (a' & m' & rest' & Hin & Hm' & Hk').
    exists a', m', rest'. cbn. auto.
Qed.

Lemma literal_inv {A : Type} (a : ascii) (s : string) (k : string -> option A) (x : A) :
  literal a s k = Some x -> exists r, s = String a r /\ k r = Some x.
Proof.
  destruct s as [|c r]; [discriminate|]. cbn [literal].
  destruct (Ascii.eqb_spec c a) as [-> |]; [|discriminate].
  intros H. exists r. auto.
Qed.

Lemma alts_short (a : list (ascii -> bool)) :
  In a alts_Y -> (length a <= 4)%nat.
Proof. intros [<- | []]. cbn. lia. Qed.

Lemma alts_m_short (a : list (ascii -> bool)) :
  In a alts_m -> (length a <= 2)%nat.
Proof. intros [<- | [<- | [<- | []]]]; cbn; lia. Qed.

Lemma alts_d_short (a : list (ascii -> bool)) :
  In a alts_d -> (length a <= 2)%nat.
Proof. intros [<- | [<- | [<- | [<- | [<- | []]]]]]; cbn; lia. Qed.

(** An accepted date has at most ten characters. *)
Lemma strptime_length (s : string) (x : Z * Z * Z) :
  strptime s = Some x -> (String.length s <= 10)%nat.
Proof.
  unfold strptime. destruct (regex_match s) as [[[[y m] d] rest]|] eqn:Hre; [|discriminate].
  destruct rest; [|discriminate]. intros _.
  unfold regex_match in Hre.
  apply first_alt_inv in Hre as (aY & gY & r1 & HinY & HmY & Hre).
  apply literal_inv in Hre as (r2 & -> & Hre).
  apply first_alt_inv in Hre as (am & gm & r3 & Hinm & Hmm & Hre).
  apply literal_inv in Hre as (r4 & -> & Hre).
  apply first_alt_inv in Hre as (ad & gd & r5 & Hind & Hmd & Hre).
  inversion Hre; subst r5.
  apply match_classes_length in HmY, Hmm, Hmd.
  apply alts_short in HinY. apply alts_m_short in Hinm. apply alts_d_short in Hind.
  cbn [String.length] in *. lia.
Qed.

Lemma category_fits (c : string) : In c CATEGORIES -> fits c.
Proof.
  intros H. cbn in H.
  repeat (destruct H as [<- | H]; [vm_compute; discriminate|]). contradiction.
Qed.

Lemma date_fits (s : string) : _validate_date (VStr s) = Ok s -> fits s.
Proof.
  cbn [_validate_date]. destruct (strptime s) as [x|] eqn:Hs; [|discriminate].
  intros _. apply strptime_length in Hs. unfold fits, len, field_limit. lia.
Qed.

(** Loading what saving wrote gives back every collection of constructed
    expenses whose amount text is read back as the amount, when the amount
    text and the description are within the field limit of the reader. *)
Theorem roundtrip_constructed (expenses : list Expense) :
  Forall (fun e => constructed e /\ amount_rereads e
                   /\ fits (PyFloat.repr (amount e)) /\ fits (description e)) expenses ->
  load_text (csv_text expenses) = (expenses, []).
Proof.
  intros H. apply load_saved_text.
  eapply Forall_impl; [exact H|]. intros e (Hc & Ha & Hfa & Hfd).
  destruct (constructed_fields e Hc) as (Hcat & Hdate & _).
  split; [apply constructed_rereads; assumption|].
  unfold expense_fields, row_fits.
  repeat split; auto using category_fits, date_fits.
Qed.

End ShortFields.

Example roundtrip_sample :
  load_text (csv_text sample_expenses) = (sample_expenses, [])
  /\ Forall (fun e => constructed e /\ amount_rereads e) sample_expenses.
Proof.
  split.
  - apply load_saved_text.
    repeat constructor; try (vm_compute; reflexivity); vm_compute; discriminate.
  - repeat constructor; try (vm_compute; reflexivity).
    + exists (VStr "12.5"), (VStr " food"), (VStr "2024-01-15"),
        (VStr (" tea, " ++ String Csv.QUOTE ("two" ++ String Csv.QUOTE (String Csv.LF "cups ")))).
      vm_compute. reflexivity.
    + exists (VStr "500"), (VStr "TRANSPORT"), (VStr "2024-02-29"), (VStr "  ").
      vm_compute. reflexivity.
Qed.
